(** * icetime/iceutil.cc: locating the chip database

    A shallow embedding of [proc_self_dirname], [file_test_open] and
    [find_chipdb].  The functions talk to the operating system, so they are
    written in a small monad that records what the process does (the
    environment variables it reads, the platform calls it makes, the files
    it probes, what it prints on stderr) and how it ends (it returns, it
    calls [exit], or it runs into behaviour the C and C++ standards leave
    undefined). *)

From Stdlib Require Import String Ascii List Bool Arith NArith Lia.
Import ListNotations.
Local Open Scope list_scope.
Local Open Scope string_scope.

Set Implicit Arguments.

(** ** Characters and C strings *)

Definition NUL : ascii := Ascii.zero.
Definition slash : ascii := "/"%char.
Definition backslash : ascii := Ascii.ascii_of_nat 92.
Definition nl : string := String (Ascii.ascii_of_nat 10) "".
Definition dquote : string := String (Ascii.ascii_of_nat 34) "".

(** What a [const char *] reader sees of a byte sequence: the bytes before
    the first NUL.  This is [std::string::c_str] followed by a C library
    call, and also the conversion of a string literal or a [char *] to a
    [std::string]. *)
Fixpoint c_str (s : string) : string :=
  match s with
  | "" => ""
  | String c r => if Ascii.eqb c NUL then "" else String c (c_str r)
  end.

(** [s[i]] for a NUL-terminated array: the terminator is read at index
    [length s]. *)
Definition char_at (i : nat) (s : string) : ascii :=
  match String.get i s with
  | Some c => c
  | None => NUL
  end.

(** [&s[1]]: the string from its second character on. *)
Definition from_index_1 (s : string) : string :=
  match s with
  | "" => ""
  | String _ r => r
  end.

Definition last_char (s : string) : option ascii :=
  match String.length s with
  | 0 => None
  | S n => String.get n s
  end.

(** ** Events, outcomes, and the monad *)

Inductive event : Type :=
| EvGetenv (name : string)        (* getenv(name) *)
| EvPlatform (call : string)      (* an introspection call of the platform *)
| EvStat (path : string)          (* stat(path, &st) *)
| EvFopen (path : string)         (* fopen(path, "r") *)
| EvStderr (text : string).       (* fprintf(stderr, ...) *)

Inductive outcome (A : Type) : Type :=
| Returns (a : A)     (* the function returns [a] *)
| Exits               (* exit(EXIT_FAILURE) *)
| Undefined           (* undefined behaviour: a null or wild pointer is read *)
| OutOfFuel.          (* the bound given to a loop of the model was too small *)

Arguments Exits {A}.
Arguments Undefined {A}.
Arguments OutOfFuel {A}.

Definition M (A : Type) : Type := (outcome A * list event)%type.

Definition ret {A} (a : A) : M A := (Returns a, []).

Definition bind {A B} (m : M A) (f : A -> M B) : M B :=
  match m with
  | (Returns a, t) => let (o, t') := f a in (o, (t ++ t')%list)
  | (Exits, t) => (Exits, t)
  | (Undefined, t) => (Undefined, t)
  | (OutOfFuel, t) => (OutOfFuel, t)
  end.

Definition emit (e : event) : M unit := (Returns tt, [e]).
Definition exit_failure {A} : M A := (Exits, []).
Definition undefined {A} : M A := (Undefined, []).
Definition out_of_fuel {A} : M A := (OutOfFuel, []).

Declare Scope proc_scope.
Delimit Scope proc_scope with proc.
Notation "x <- c ;; k" := (bind c (fun x => k))
  (at level 61, c at next level, right associativity) : proc_scope.
Notation "c ;; k" := (bind c (fun _ => k))
  (at level 61, right associativity) : proc_scope.
Local Open Scope proc_scope.

(** [fprintf(stderr, msg); exit(EXIT_FAILURE);] *)
Definition fatal {A} (msg : string) : M A :=
  emit (EvStderr msg) ;; exit_failure.

(** ** The build and the process state *)

(** The preprocessor branch that was compiled.  [Linux] stands for
    [__linux__ || __CYGWIN__]. *)
Inductive Platform : Type :=
| Linux | FreeBSD | Apple | Win32 | OpenBSD | Emscripten.

(** What is fixed when the file is compiled.  [PREFIX] and [CHIPDB_SUBDIR]
    are string-literal macros given on the compiler's command line;
    [PATH_MAX] and [MAX_PATH] come from the platform's headers. *)
Record Build : Type := {
  platform : Platform;
  PREFIX : string;
  CHIPDB_SUBDIR : string;
  PATH_MAX : nat;
  MAX_PATH : nat
}.

(** The result of a platform call that reports failure through [errno]:
    [Err e] carries [strerror(errno)]. *)
Inductive syscall (A : Type) : Type :=
| Ok (a : A)
| Err (strerror : string).

Arguments Err {A}.

(** [fopen(path, "r")]: a stream, or the null pointer with [errno] set. *)
Inductive fopen_result : Type :=
| Stream
| NoStream (errno : nat).

(** What the process finds around it.  Every field is the answer of the
    operating system to one call of the source. *)
Record World : Type := {
  verbose : bool;                         (* extern bool verbose *)
  env : string -> option string;          (* getenv; None is the null pointer *)
  fopen_r : string -> fopen_result;       (* fopen(path, "r") *)
  heap : nat -> syscall unit;             (* malloc, realloc, strdup of n bytes *)
  (* Linux, Cygwin *)
  proc_self_exe : syscall string;         (* target of the link /proc/self/exe *)
  (* FreeBSD: sysctl KERN_PROC_PATHNAME, size query then fill *)
  kern_proc_pathname_len : syscall nat;
  kern_proc_pathname : syscall string;    (* the bytes written, buflen of them *)
  (* Apple *)
  ns_executable_path : string;            (* what _NSGetExecutablePath copies *)
  (* Windows: return values, and shortpath[] after GetShortPathName *)
  GetModuleFileName_ret : N;
  GetShortPathName_ret : N;
  shortpath_units : list N;
  (* OpenBSD: sysctl KERN_PROC_ARGV, size query then fill *)
  kern_proc_argv_len : syscall nat;
  kern_proc_argv : syscall (list string);
  realpath_r : string -> option string;   (* realpath(path, epath) *)
  stat_r : string -> option N             (* stat(path, &st): st.st_mode *)
}.

Definition getenv (w : World) (name : string) : M (option string) :=
  emit (EvGetenv name) ;; ret (env w name).

(** ** Trimming a path back to its last separator *)

(** [while (buflen > 0 && path[buflen-1] != '/') buflen--;] *)
Fixpoint dirname_len (path : string) (buflen : nat) : nat :=
  match buflen with
  | 0 => 0
  | S n => if Ascii.eqb (char_at n path) slash then buflen
           else dirname_len path n
  end.

(** [std::string(path, buflen)] after the loop. *)
Definition dirname (path : string) (buflen : nat) : string :=
  String.substring 0 (dirname_len path buflen) path.

(** ** [proc_self_dirname], one definition per preprocessor branch
    (iceutil.cc, lines 48 to 204) *)

Section Resolver.

Variable b : Build.
Variable w : World.

(** *** [__linux__ || __CYGWIN__] (lines 49 to 60) *)

(** [readlink("/proc/self/exe", buf, bufsiz)] places at most [bufsiz]
    bytes of the link's target in [buf], without a terminator, and returns
    how many.  The kernel builds the target of this link in a buffer of
    [PATH_MAX] bytes of its own: a target of [PATH_MAX] bytes or more makes
    the call fail with ENAMETOOLONG. *)
Definition readlink (bufsiz : nat) : M (syscall string) :=
  emit (EvPlatform "readlink") ;;
  ret (match proc_self_exe w with
       | Ok target =>
           if Nat.leb (PATH_MAX b) (String.length target)
           then Err "File name too long"
           else Ok (String.substring 0 bufsiz target)
       | Err e => Err e
       end).

Definition proc_self_dirname_linux : M string :=
  r <- readlink (PATH_MAX b) ;;
  match r with
  | Err e =>
      fatal ("fatal error: readlink(" ++ dquote ++ "/proc/self/exe" ++ dquote
             ++ ") failed: " ++ e ++ nl)
  | Ok path => ret (dirname path (String.length path))
  end.

(** *** [__FreeBSD__] (lines 62 to 86) *)

Definition sysctl {A} (answer : syscall A) : M (syscall A) :=
  emit (EvPlatform "sysctl") ;; ret answer.

Definition proc_self_dirname_freebsd : M string :=
  r1 <- sysctl (kern_proc_pathname_len w) ;;
  match r1 with
  | Err e => fatal ("fatal error: sysctl failed: " ++ e ++ nl)
  | Ok buflen =>
      match heap w buflen with
      | Err e => fatal ("fatal error: malloc failed: " ++ e ++ nl)
      | Ok _ =>
          r2 <- sysctl (kern_proc_pathname w) ;;
          match r2 with
          | Err e => fatal ("fatal error: sysctl failed: " ++ e ++ nl)
          | Ok buffer => ret (dirname buffer (String.length buffer))
          end
      end
  end.

(** *** [__APPLE__] (lines 88 to 97) *)

(** [_NSGetExecutablePath(path, &buflen)]: when [buflen] is too small the
    call stores the size it needs and fails; otherwise it copies the path
    and its terminator to [path].  [None] is the null pointer. *)
Definition NSGetExecutablePath (path : option string) (buflen : nat)
  : M (bool * option string * nat) :=
  emit (EvPlatform "_NSGetExecutablePath") ;;
  let exe := c_str (ns_executable_path w) in
  let needed := S (String.length exe) in
  if Nat.ltb buflen needed then ret (false, path, needed)
  else match path with
       | None => undefined
       | Some _ => ret (true, Some (exe ++ String NUL ""), buflen)
       end.

Definition realloc (path : option string) (size : nat) : option string :=
  match heap w size with
  | Ok _ => Some (match path with Some old => old | None => "" end)
  | Err _ => None
  end.

(** [while (_NSGetExecutablePath(path, &buflen) != 0)
       path = (char * ) realloc((void * ) path, buflen);] *)
Fixpoint NSGetExecutablePath_loop (fuel : nat) (path : option string)
    (buflen : nat) : M (option string * nat) :=
  match fuel with
  | 0 => out_of_fuel
  | S fuel' =>
      r <- NSGetExecutablePath path buflen ;;
      match r with
      | (true, path', buflen') => ret (path', buflen')
      | (false, path', buflen') =>
          NSGetExecutablePath_loop fuel' (realloc path' buflen') buflen'
      end
  end.

Definition proc_self_dirname_apple : M string :=
  r <- NSGetExecutablePath_loop 2 None 0 ;;
  match r with
  | (Some path, buflen) => ret (dirname path buflen)
  | (None, _) => undefined
  end.

(** *** [_WIN32] (lines 99 to 125)

    [shortpath] is an array of [MAX_PATH + 1] code units ([char] under
    MinGW, 16-bit units otherwise), kept as a list of numbers. *)

Definition unit_is (c : ascii) (u : N) : bool := N.eqb u (N_of_ascii c).

(** [char(u)]: the low eight bits. *)
Definition narrow (u : N) : ascii := ascii_of_N (N.modulo u 256).

(** [while (shortpath[i] != 0) i++;]  [None]: the scan leaves the array. *)
Fixpoint units_strlen (shortpath : list N) : option nat :=
  match shortpath with
  | [] => None
  | u :: r => if N.eqb u 0 then Some 0
              else option_map S (units_strlen r)
  end.

Fixpoint store_unit (i : nat) (u : N) (a : list N) : list N :=
  match a, i with
  | [], _ => []
  | _ :: r, 0 => u :: r
  | x :: r, S j => x :: store_unit j u r
  end.

(** [while (i > 0 && shortpath[i-1] != '/' && shortpath[i-1] != '\\')
       shortpath[--i] = 0;] *)
Fixpoint trim_shortpath (shortpath : list N) (i : nat) : list N * nat :=
  match i with
  | 0 => (shortpath, 0)
  | S j =>
      let u := nth j shortpath 0%N in
      if unit_is slash u || unit_is backslash u then (shortpath, i)
      else trim_shortpath (store_unit j 0%N shortpath) j
  end.

(** [for (i = 0; shortpath[i]; i++) path += char(shortpath[i]);] *)
Fixpoint narrow_units (shortpath : list N) : option string :=
  match shortpath with
  | [] => None
  | u :: r => if N.eqb u 0 then Some ""
              else option_map (String (narrow u)) (narrow_units r)
  end.

Definition proc_self_dirname_win32 : M string :=
  emit (EvPlatform "GetModuleFileName") ;;
  if N.eqb (GetModuleFileName_ret w) 0 then
    fatal ("fatal error: GetModuleFileName() failed." ++ nl)
  else
    emit (EvPlatform "GetShortPathName") ;;
    if N.eqb (GetShortPathName_ret w) 0 then
      fatal ("fatal error: GetShortPathName() failed." ++ nl)
    else
      let shortpath := firstn (S (MAX_PATH b)) (shortpath_units w) in
      match units_strlen shortpath with
      | None => undefined
      | Some i =>
          match narrow_units (fst (trim_shortpath shortpath i)) with
          | None => undefined
          | Some path => ret path
          end
      end.

(** *** [__OpenBSD__] (lines 129 to 196) *)

Definition S_IXUSR : N := 64.   (* 0100 *)

Definition colon : ascii := ":"%char.

(** The two phases of [strtok_r(s, ":", &sp)]: skip leading delimiters,
    then cut at the next delimiter; the rest is what [sp] points to. *)
Fixpoint skip_delim (s : string) : string :=
  match s with
  | "" => ""
  | String c r => if Ascii.eqb c colon then skip_delim r else s
  end.

Fixpoint cut_at_delim (s : string) : string * string :=
  match s with
  | "" => ("", "")
  | String c r =>
      if Ascii.eqb c colon then ("", r)
      else let (tok, rest) := cut_at_delim r in (String c tok, rest)
  end.

Definition next_token (s : string) : option string * string :=
  match skip_delim s with
  | "" => (None, "")
  | s' => let (tok, rest) := cut_at_delim s' in (Some tok, rest)
  end.

(** [strtok_r(str, ":", &sp)].  [str = None] is the null pointer: the scan
    then continues from [sp], which is [None] while uninitialised. *)
Definition strtok_r (str : option string) (sp : option string)
  : M (option string * option string) :=
  match str with
  | Some s => let (tok, rest) := next_token s in ret (tok, Some rest)
  | None =>
      match sp with
      | None => undefined
      | Some s => let (tok, rest) := next_token s in ret (tok, Some rest)
      end
  end.

(** [strdup(p)]: reads [p] (undefined for the null pointer) and returns a
    copy, or the null pointer, with [errno] set, when memory is short. *)
Definition strdup (p : option string) : M (syscall string) :=
  match p with
  | None => undefined
  | Some s =>
      match heap w (S (String.length (c_str s))) with
      | Ok _ => ret (Ok (c_str s))
      | Err e => ret (Err e)
      end
  end.

(** The pointer a call returned: [None] is the null pointer. *)
Definition pointer {A} (r : syscall A) : option A :=
  match r with
  | Ok a => Some a
  | Err _ => None
  end.

(** [snprintf(epath, PATH_MAX, "%s/%s", path, comm)] *)
Definition snprintf_join (path comm : string) : string :=
  String.substring 0 (PATH_MAX b - 1) (path ++ "/" ++ comm).

(** [!stat(epath, &st) && (st.st_mode & S_IXUSR)] *)
Definition stat_executable (epath : string) : M bool :=
  emit (EvStat epath) ;;
  ret (match stat_r w epath with
       | Some st_mode => negb (N.eqb (N.land st_mode S_IXUSR) 0)
       | None => false
       end).

(** [while (path) { ... path = strtok_r(NULL, ":", &sp); }]
    The result is [epath] when the loop left through [break] ([ok = 1]). *)
Fixpoint path_loop (fuel : nat) (comm : string) (path : option string)
    (sp : option string) : M (option string) :=
  match path with
  | None => ret None
  | Some dir =>
      match fuel with
      | 0 => out_of_fuel
      | S fuel' =>
          let epath := snprintf_join dir comm in
          hit <- stat_executable epath ;;
          if hit then ret (Some epath)
          else
            r <- strtok_r None sp ;;
            let (path', sp') := r in
            path_loop fuel' comm path' sp'
      end
  end.

Definition proc_self_dirname_openbsd : M string :=
  r1 <- sysctl (kern_proc_argv_len w) ;;
  match r1 with
  | Err e => fatal ("fatal error: sysctl failed: " ++ e ++ nl)
  | Ok len =>
      match heap w len with
      | Err e => fatal ("fatal error: malloc failed: " ++ e ++ nl)
      | Ok _ =>
          r2 <- sysctl (kern_proc_argv w) ;;
          match r2 with
          | Err e => fatal ("fatal error: sysctl failed: " ++ e ++ nl)
          | Ok [] => undefined           (* comm = argv[0] is null *)
          | Ok (argv0 :: _) =>
              let comm := c_str argv0 in
              found <-
                (if Ascii.eqb (char_at 0 comm) slash
                    || Ascii.eqb (char_at 0 comm) "."%char
                 then
                   emit (EvPlatform "realpath") ;;
                   ret (option_map c_str (realpath_r w comm))
                 else
                   p <- getenv w "PATH" ;;
                   xpath <- strdup p ;;
                   r <- strtok_r (pointer xpath) None ;;
                   let (path, sp) := r in
                   match xpath with
                   | Err e => fatal ("fatal error: strdup failed: " ++ e ++ nl)
                   | Ok xp => path_loop (S (String.length xp)) comm path sp
                   end) ;;
              match found with
              | Some epath => ret (dirname epath (String.length epath))
              | None => ret ""
              end
          end
      end
  end.

(** *** [EMSCRIPTEN] (lines 198 to 201) *)

Definition proc_self_dirname_emscripten : M string := ret "/".

Definition proc_self_dirname : M string :=
  match platform b with
  | Linux => proc_self_dirname_linux
  | FreeBSD => proc_self_dirname_freebsd
  | Apple => proc_self_dirname_apple
  | Win32 => proc_self_dirname_win32
  | OpenBSD => proc_self_dirname_openbsd
  | Emscripten => proc_self_dirname_emscripten
  end.

End Resolver.

(** ** [file_test_open] (lines 206 to 214) and [find_chipdb]
    (lines 218 to 256) *)

Section Locator.

Variable b : Build.
Variable w : World.

(** [fopen(path.c_str(), "r")], closed at once when it opened. *)
Definition file_test_open (path : string) : M bool :=
  emit (EvFopen (c_str path)) ;;
  ret (match fopen_r w (c_str path) with
       | Stream => true
       | NoStream _ => false
       end).

(** [fprintf(stderr, "Looking for chipdb '%s' at %s\n", ...)] *)
Definition looking_for (config_device path : string) : string :=
  "Looking for chipdb '" ++ c_str config_device ++ "' at " ++ c_str path ++ nl.

Definition report (config_device path : string) : M unit :=
  if verbose w then emit (EvStderr (looking_for config_device path))
  else ret tt.

(** [homepath += p] for a [char *] [p]: reading the null pointer is
    undefined. *)
Definition append_chars (homepath : string) (p : option string) : M string :=
  match p with
  | None => undefined
  | Some v => ret (homepath ++ c_str v)
  end.

(** The lines between [std::string homepath;] and [#endif]. *)
Definition homepath_env : M string :=
  match platform b with
  | Win32 =>
      up <- getenv w "USERPROFILE" ;;
      match up with
      | Some _ =>
          p <- getenv w "USERPROFILE" ;; append_chars "" p
      | None =>
          hd <- getenv w "HOMEDRIVE" ;;
          match hd with
          | None => ret ""
          | Some _ =>
              hp <- getenv w "HOMEPATH" ;;
              match hp with
              | None => ret ""
              | Some _ =>
                  d <- getenv w "HOMEDRIVE" ;;
                  homepath <- append_chars "" d ;;
                  p <- getenv w "HOMEPATH" ;;
                  append_chars homepath p
              end
          end
      end
  | _ =>
      p <- getenv w "HOME" ;; append_chars "" p
  end.

(** [PREFIX[0] == '~' && PREFIX[1] == '/'] *)
Definition PREFIX_in_home : bool :=
  Ascii.eqb (char_at 0 (PREFIX b)) "~"%char
  && Ascii.eqb (char_at 1 (PREFIX b)) slash.

(** The three paths.  Adjacent string literals are one literal, and a
    literal is read up to its first NUL when it becomes a [std::string]. *)
Definition homepath_of (home config_device : string) : string :=
  home ++ (c_str (from_index_1 (PREFIX b))
           ++ c_str ("/" ++ CHIPDB_SUBDIR b ++ "/chipdb-")
           ++ config_device ++ ".txt").

Definition prefixpath_of (config_device : string) : string :=
  c_str (PREFIX b ++ "/share/" ++ CHIPDB_SUBDIR b ++ "/chipdb-")
  ++ config_device ++ ".txt".

Definition relbinarypath_of (dir config_device : string) : string :=
  dir ++ c_str ("../share/" ++ CHIPDB_SUBDIR b ++ "/chipdb-")
  ++ config_device ++ ".txt".

Definition find_chipdb (config_device : string) : M string :=
  early <-
    (if PREFIX_in_home then
       home <- homepath_env ;;
       let homepath := homepath_of home config_device in
       report config_device homepath ;;
       hit <- file_test_open homepath ;;
       ret (if hit then Some homepath else None)
     else ret None) ;;
  match early with
  | Some homepath => ret homepath
  | None =>
      let prefixpath := prefixpath_of config_device in
      report config_device prefixpath ;;
      hit <- file_test_open prefixpath ;;
      if hit then ret prefixpath
      else
        dir <- proc_self_dirname b w ;;
        let relbinarypath := relbinarypath_of dir config_device in
        report config_device relbinarypath ;;
        hit <- file_test_open relbinarypath ;;
        if hit then ret relbinarypath else ret ""
  end.

End Locator.

(** ** Small worlds to run the model on *)

Definition no_env : string -> option string := fun _ => None.

Definition set_env (name value : string) (e : string -> option string)
  : string -> option string :=
  fun n => if String.eqb n name then Some value else e n.

Definition no_files : string -> fopen_result := fun _ => NoStream 2.

Definition add_file (path : string) (fs : string -> fopen_result)
  : string -> fopen_result :=
  fun p => if String.eqb p path then Stream else fs p.

(** A process for which every platform call fails and nothing exists. *)
Definition bare_world : World := {|
  verbose := false;
  env := no_env;
  fopen_r := no_files;
  heap := fun _ => Ok tt;
  proc_self_exe := Err "No such file or directory";
  kern_proc_pathname_len := Err "Operation not permitted";
  kern_proc_pathname := Err "Operation not permitted";
  ns_executable_path := "";
  GetModuleFileName_ret := 0;
  GetShortPathName_ret := 0;
  shortpath_units := [];
  kern_proc_argv_len := Err "Operation not permitted";
  kern_proc_argv := Err "Operation not permitted";
  realpath_r := fun _ => None;
  stat_r := fun _ => None
|}.

Definition with_verbose (v : bool) (w : World) : World := {|
  verbose := v;
  env := env w;
  fopen_r := fopen_r w;
  heap := heap w;
  proc_self_exe := proc_self_exe w;
  kern_proc_pathname_len := kern_proc_pathname_len w;
  kern_proc_pathname := kern_proc_pathname w;
  ns_executable_path := ns_executable_path w;
  GetModuleFileName_ret := GetModuleFileName_ret w;
  GetShortPathName_ret := GetShortPathName_ret w;
  shortpath_units := shortpath_units w;
  kern_proc_argv_len := kern_proc_argv_len w;
  kern_proc_argv := kern_proc_argv w;
  realpath_r := realpath_r w;
  stat_r := stat_r w
|}.

Definition with_env (e : string -> option string) (w : World) : World := {|
  verbose := verbose w;
  env := e;
  fopen_r := fopen_r w;
  heap := heap w;
  proc_self_exe := proc_self_exe w;
  kern_proc_pathname_len := kern_proc_pathname_len w;
  kern_proc_pathname := kern_proc_pathname w;
  ns_executable_path := ns_executable_path w;
  GetModuleFileName_ret := GetModuleFileName_ret w;
  GetShortPathName_ret := GetShortPathName_ret w;
  shortpath_units := shortpath_units w;
  kern_proc_argv_len := kern_proc_argv_len w;
  kern_proc_argv := kern_proc_argv w;
  realpath_r := realpath_r w;
  stat_r := stat_r w
|}.

Definition with_files (fs : string -> fopen_result) (w : World) : World := {|
  verbose := verbose w;
  env := env w;
  fopen_r := fs;
  heap := heap w;
  proc_self_exe := proc_self_exe w;
  kern_proc_pathname_len := kern_proc_pathname_len w;
  kern_proc_pathname := kern_proc_pathname w;
  ns_executable_path := ns_executable_path w;
  GetModuleFileName_ret := GetModuleFileName_ret w;
  GetShortPathName_ret := GetShortPathName_ret w;
  shortpath_units := shortpath_units w;
  kern_proc_argv_len := kern_proc_argv_len w;
  kern_proc_argv := kern_proc_argv w;
  realpath_r := realpath_r w;
  stat_r := stat_r w
|}.

Definition with_exe (target : syscall string) (w : World) : World := {|
  verbose := verbose w;
  env := env w;
  fopen_r := fopen_r w;
  heap := heap w;
  proc_self_exe := target;
  kern_proc_pathname_len := kern_proc_pathname_len w;
  kern_proc_pathname := kern_proc_pathname w;
  ns_executable_path := ns_executable_path w;
  GetModuleFileName_ret := GetModuleFileName_ret w;
  GetShortPathName_ret := GetShortPathName_ret w;
  shortpath_units := shortpath_units w;
  kern_proc_argv_len := kern_proc_argv_len w;
  kern_proc_argv := kern_proc_argv w;
  realpath_r := realpath_r w;
  stat_r := stat_r w
|}.

(** An OpenBSD process started as [argv], with the given [stat] answers. *)
Definition with_argv (argv : list string) (st : string -> option N)
    (w : World) : World := {|
  verbose := verbose w;
  env := env w;
  fopen_r := fopen_r w;
  heap := heap w;
  proc_self_exe := proc_self_exe w;
  kern_proc_pathname_len := kern_proc_pathname_len w;
  kern_proc_pathname := kern_proc_pathname w;
  ns_executable_path := ns_executable_path w;
  GetModuleFileName_ret := GetModuleFileName_ret w;
  GetShortPathName_ret := GetShortPathName_ret w;
  shortpath_units := shortpath_units w;
  kern_proc_argv_len := Ok (8 * S (List.length argv));
  kern_proc_argv := Ok argv;
  realpath_r := realpath_r w;
  stat_r := st
|}.

Definition build (p : Platform) (prefix subdir : string) : Build := {|
  platform := p;
  PREFIX := prefix;
  CHIPDB_SUBDIR := subdir;
  PATH_MAX := match p with Linux => 4096 | _ => 1024 end;
  MAX_PATH := 260
|}.

(** A Linux desk: [HOME] is set, the tool runs from /opt/ice/bin, and
    exactly the listed files can be opened. *)
Definition desk_world (files : list string) : World :=
  with_files (fold_right add_file no_files files)
    (with_env (set_env "HOME" "/home/u" no_env)
       (with_exe (Ok "/opt/ice/bin/icetime") bare_world)).

Definition home_build : Build := build Linux "~/.local" "icebox".
Definition usr_build : Build := build Linux "/usr/local" "icebox".

(** [stat] succeeds, with mode 0100755, exactly on the listed paths. *)
Definition stat_of (executables : list string) : string -> option N :=
  fun p => if existsb (String.eqb p) executables then Some 33261%N else None.

(** An OpenBSD process started as [argv] with the given [PATH]. *)
Definition openbsd_world (path_var : option string) (argv : list string)
    (executables : list string) : World :=
  with_env (match path_var with
            | Some p => set_env "PATH" p no_env
            | None => no_env
            end)
    (with_argv argv (stat_of executables) bare_world).

Definition openbsd_build : Build := build OpenBSD "/usr/local" "icebox".

(** A file name of the greatest length a directory entry can have. *)
Definition name255 (c : ascii) : string :=
  string_of_list_ascii (repeat c 255).

(** A link target of 4360 bytes, seventeen directories deep. *)
Definition deep_target : string :=
  String.concat "" (repeat ("/" ++ name255 "a") 17) ++ "/icetime".

(** A [PATH] entry of 1029 bytes, its parent directory, and what
    [snprintf] keeps of the entry joined with "tool" in a buffer of 1024
    bytes: the entry's last name cut to 249 characters. *)
Definition long_entry_parent : string :=
  "/" ++ name255 "a" ++ "/" ++ name255 "b" ++ "/" ++ name255 "c" ++ "/dir4/".

Definition long_entry : string := long_entry_parent ++ name255 "d".

Definition cut_join : string :=
  long_entry_parent ++ string_of_list_ascii (repeat "d"%char 249).

(** ** Vocabulary for the statements *)

(** The message of the Linux variant for the error [e]. *)
Definition readlink_message (e : string) : string :=
  "fatal error: readlink(" ++ dquote ++ "/proc/self/exe" ++ dquote
  ++ ") failed: " ++ e ++ nl.

Definition is_probe (e : event) : bool :=
  match e with
  | EvFopen _ => true
  | _ => false
  end.

Definition is_getenv (e : event) : bool :=
  match e with
  | EvGetenv _ => true
  | _ => false
  end.

(** Whether [fopen] gave a stream; the value of [errno] is dropped. *)
Definition opens (r : fopen_result) : bool :=
  match r with
  | Stream => true
  | NoStream _ => false
  end.

(** The probe of [file_test_open] as a test on the world. *)
Definition openable (w : World) (path : string) : bool :=
  opens (fopen_r w (c_str path)).

(** The diagnostic line for a probe of the C string [cpath]. *)
Definition diagnostic (config_device cpath : string) : string :=
  "Looking for chipdb '" ++ c_str config_device ++ "' at " ++ cpath ++ nl.

(** What one step of the search leaves in the trace: the diagnostic when
    [verbose] is set, then the probe. *)
Definition probe_events (w : World) (config_device path : string)
  : list event :=
  ((if verbose w then [EvStderr (diagnostic config_device (c_str path))]
    else []) ++ [EvFopen (c_str path)])%list.

(** A trace with the diagnostic line put before each probe. *)
Fixpoint with_diagnostics (config_device : string) (t : list event)
  : list event :=
  match t with
  | [] => []
  | EvFopen p :: r =>
      EvStderr (diagnostic config_device p) :: EvFopen p
        :: with_diagnostics config_device r
  | e :: r => e :: with_diagnostics config_device r
  end.

(** The search as the specification words it: candidates are taken in
    order, each is computed, reported and probed, and the first that opens
    is the result; when none is left the result is the empty path. *)
Fixpoint first_openable (w : World) (config_device : string)
    (candidates : list (M string)) : M string :=
  match candidates with
  | [] => ret ""
  | c :: rest =>
      path <- c ;;
      report w config_device path ;;
      hit <- file_test_open w path ;;
      if hit then ret path else first_openable w config_device rest
  end.

Definition home_candidate (b : Build) (w : World) (config_device : string)
  : M string :=
  home <- homepath_env b w ;; ret (homepath_of b home config_device).

Definition prefix_candidate (b : Build) (config_device : string) : M string :=
  ret (prefixpath_of b config_device).

Definition relbinary_candidate (b : Build) (w : World)
    (config_device : string) : M string :=
  dir <- proc_self_dirname b w ;; ret (relbinarypath_of b dir config_device).

Definition candidates (b : Build) (w : World) (config_device : string)
  : list (M string) :=
  ((if PREFIX_in_home b then [home_candidate b w config_device] else [])
   ++ [prefix_candidate b config_device;
       relbinary_candidate b w config_device])%list.

(** The home step did not produce the result: it was skipped, or its
    candidate was built and did not open.  [t] is what it left in the
    trace. *)
Definition home_step_passed (b : Build) (w : World) (config_device : string)
    (t : list event) : Prop :=
  (PREFIX_in_home b = false /\ t = [])
  \/ (PREFIX_in_home b = true
      /\ exists home t0,
           homepath_env b w = (Returns home, t0)
           /\ openable w (homepath_of b home config_device) = false
           /\ t = (t0 ++ probe_events w config_device
                           (homepath_of b home config_device))%list).

(** The code units of a prefix of [shortpath], narrowed to [char]. *)
Fixpoint narrow_string (units : list N) : string :=
  match units with
  | [] => ""
  | u :: r => String (narrow u) (narrow_string r)
  end.

(** [first_zero a n]: the first zero unit of the array is at index [n]. *)
Definition first_zero (a : list N) (n : nat) : Prop :=
  n < List.length a /\ nth n a 0%N = 0%N
  /\ forall i, i < n -> nth i a 0%N <> 0%N.

Definition is_separator_unit (u : N) : bool :=
  unit_is slash u || unit_is backslash u.

(** A directory string as the resolver produces it: empty, or ending in
    a separator (on Windows either of the two). *)
Definition ends_with_separator (b : Build) (d : string) : Prop :=
  last_char d = Some slash
  \/ (platform b = Win32 /\ last_char d = Some backslash).

(** Exactly one separator at the end: the last character is a separator
    and the one before it, if any, is not. *)
Definition ends_with_one_separator (d : string) : bool :=
  match rev (list_ascii_of_string d) with
  | [] => false
  | c :: before =>
      (Ascii.eqb c slash || Ascii.eqb c backslash)
      && match before with
         | [] => true
         | c' :: _ => negb (Ascii.eqb c' slash || Ascii.eqb c' backslash)
         end
  end.

(** The entries of a search path: the non-empty stretches between
    colons, in order. *)
Fixpoint path_entries_from (s : string) (entry : string) : list string :=
  match s with
  | "" => match entry with "" => [] | _ => [entry] end
  | String c r =>
      if Ascii.eqb c colon then
        match entry with
        | "" => path_entries_from r ""
        | _ => entry :: path_entries_from r ""
        end
      else path_entries_from r (entry ++ String c "")
  end.

Definition path_entries (s : string) : list string :=
  path_entries_from s "".

(** The test the search applies to the entry [dir]. *)
Definition executable_at (b : Build) (w : World) (comm dir : string) : bool :=
  match stat_r w (snprintf_join b dir comm) with
  | Some st_mode => negb (N.eqb (N.land st_mode S_IXUSR) 0)
  | None => false
  end.

(** The entries taken in order until one passes the test. *)
Fixpoint first_executable (b : Build) (w : World) (comm : string)
    (entries : list string) : M (option string) :=
  match entries with
  | [] => ret None
  | dir :: rest =>
      hit <- stat_executable w (snprintf_join b dir comm) ;;
      if hit then ret (Some (snprintf_join b dir comm))
      else first_executable b w comm rest
  end.


(** The events the resolver can leave: platform calls, [stat] calls, a
    read of [PATH], and a fatal message other than the one for [strdup].
    It opens no file. *)
Definition resolver_event (e : event) : bool :=
  match e with
  | EvPlatform _ => true
  | EvStat _ => true
  | EvGetenv name => String.eqb name "PATH"
  | EvStderr text =>
      String.prefix "fatal error: " text
      && negb (String.prefix "fatal error: strdup" text)
  | EvFopen _ => false
  end.

(** What the OpenBSD resolver does before it walks the search path. *)
Definition openbsd_prelude : list event :=
  [EvPlatform "sysctl"; EvPlatform "sysctl"; EvGetenv "PATH"].

(** The walk over the entries of [p] and the trimming of its result. *)
Definition openbsd_found (b : Build) (w : World) (argv0 p : string)
  : M string :=
  found <- first_executable b w (c_str argv0) (path_entries (c_str p)) ;;
  match found with
  | Some epath => ret (dirname epath (String.length epath))
  | None => ret ""
  end.

Fixpoint has_slash (s : string) : bool :=
  match s with
  | "" => false
  | String c r => Ascii.eqb c slash || has_slash r
  end.

(** The search from the fixed prefix on, written out by cases: what is
    returned and what is left in the trace. *)
Definition from_prefix (b : Build) (w : World) (config_device : string)
  : M string :=
  let prefixpath := prefixpath_of b config_device in
  if openable w prefixpath then
    (Returns prefixpath, probe_events w config_device prefixpath)
  else
    match proc_self_dirname b w with
    | (Returns dir, t) =>
        let relbinarypath := relbinarypath_of b dir config_device in
        (Returns (if openable w relbinarypath then relbinarypath else ""),
         (probe_events w config_device prefixpath ++ t
          ++ probe_events w config_device relbinarypath)%list)
    | (Exits, t) =>
        (Exits, (probe_events w config_device prefixpath ++ t)%list)
    | (Undefined, t) =>
        (Undefined, (probe_events w config_device prefixpath ++ t)%list)
    | (OutOfFuel, t) =>
        (OutOfFuel, (probe_events w config_device prefixpath ++ t)%list)
    end.

(** ** Further vocabulary: kinds of events, counting, more worlds *)

Definition is_stderr (e : event) : bool :=
  match e with
  | EvStderr _ => true
  | _ => false
  end.

Definition is_stat (e : event) : bool :=
  match e with
  | EvStat _ => true
  | _ => false
  end.

(** A trace in which nothing was written to stderr. *)
Definition silent (t : list event) : bool :=
  forallb (fun e => negb (is_stderr e)) t.

(** How many [fopen] probes a trace holds. *)
Definition count_probes (t : list event) : nat :=
  List.length (filter is_probe t).

Fixpoint has_nul (s : string) : bool :=
  match s with
  | "" => false
  | String c r => Ascii.eqb c NUL || has_nul r
  end.


(** The code units of a C string in a buffer, with the terminator. *)
Definition units_of_string (s : string) : list N :=
  (map N_of_ascii (list_ascii_of_string s) ++ [0%N])%list.

(** A Windows process whose two calls succeeded and left [s] in
    [shortpath]. *)
Definition win32_world (s : string) : World := {|
  verbose := false;
  env := no_env;
  fopen_r := no_files;
  heap := fun _ => Ok tt;
  proc_self_exe := Err "";
  kern_proc_pathname_len := Err "";
  kern_proc_pathname := Err "";
  ns_executable_path := "";
  GetModuleFileName_ret := N.of_nat (String.length s);
  GetShortPathName_ret := N.of_nat (String.length s);
  shortpath_units := units_of_string s;
  kern_proc_argv_len := Err "";
  kern_proc_argv := Err "";
  realpath_r := fun _ => None;
  stat_r := fun _ => None
|}.

(** A macOS process whose executable is [exe]; [memory] answers
    [realloc]. *)
Definition apple_world (exe : string) (memory : nat -> syscall unit)
  : World := {|
  verbose := false;
  env := no_env;
  fopen_r := no_files;
  heap := memory;
  proc_self_exe := Err "";
  kern_proc_pathname_len := Err "";
  kern_proc_pathname := Err "";
  ns_executable_path := exe;
  GetModuleFileName_ret := 0;
  GetShortPathName_ret := 0;
  shortpath_units := [];
  kern_proc_argv_len := Err "";
  kern_proc_argv := Err "";
  realpath_r := fun _ => None;
  stat_r := fun _ => None
|}.

(** A FreeBSD process whose second [sysctl] wrote [exe] and its
    terminator. *)
Definition freebsd_world (exe : string) : World := {|
  verbose := false;
  env := no_env;
  fopen_r := no_files;
  heap := fun _ => Ok tt;
  proc_self_exe := Err "";
  kern_proc_pathname_len := Ok (S (String.length exe));
  kern_proc_pathname := Ok (exe ++ String NUL "");
  ns_executable_path := "";
  GetModuleFileName_ret := 0;
  GetShortPathName_ret := 0;
  shortpath_units := [];
  kern_proc_argv_len := Err "";
  kern_proc_argv := Err "";
  realpath_r := fun _ => None;
  stat_r := fun _ => None
|}.

(** An OpenBSD process started through a path: [realpath] resolves
    [argv0] to [resolved]. *)
Definition openbsd_realpath_world (argv0 : string) (resolved : option string)
  : World :=
  let w := with_argv [argv0] (fun _ => None) bare_world in
  {|
    verbose := verbose w;
    env := env w;
    fopen_r := fopen_r w;
    heap := heap w;
    proc_self_exe := proc_self_exe w;
    kern_proc_pathname_len := kern_proc_pathname_len w;
    kern_proc_pathname := kern_proc_pathname w;
    ns_executable_path := ns_executable_path w;
    GetModuleFileName_ret := GetModuleFileName_ret w;
    GetShortPathName_ret := GetShortPathName_ret w;
    shortpath_units := shortpath_units w;
    kern_proc_argv_len := kern_proc_argv_len w;
    kern_proc_argv := kern_proc_argv w;
    realpath_r := fun p => if String.eqb p argv0 then resolved else None;
    stat_r := stat_r w
  |}.

(** A question put to the platform or to the environment. *)
Definition is_query (e : event) : bool :=
  match e with
  | EvPlatform _ => true
  | EvGetenv _ => true
  | _ => false
  end.

(** The three ways a run of the resolver can look: it exits, and the last
    thing it did was to print one fatal message after its queries; or it
    does not exit and only put queries; or it walked [PATH]. *)
Definition exits_after_message (r : M string) : Prop :=
  exists calls msg,
    r = (Exits, (calls ++ [EvStderr msg])%list)
    /\ forallb is_query calls = true
    /\ String.prefix "fatal error: " msg = true.

Definition ends_after_queries (r : M string) : Prop :=
  exists o calls,
    r = (o, calls) /\ o <> Exits /\ forallb is_query calls = true.

(** A Windows process with the given environment. *)
Definition win32_env_world (e : string -> option string) : World :=
  with_env e (win32_world "C:\ICE\ICETIME.EXE").

(** * Properties *)

(** ** The monad *)

Lemma bind_ret {A B} (a : A) (f : A -> M B) : bind (ret a) f = f a.
Proof. unfold bind, ret. destruct (f a) as [o t]. reflexivity. Qed.

Lemma bind_returns {A B} (a : A) (t : list event) (f : A -> M B) :
  bind (Returns a, t) f = (fst (f a), (t ++ snd (f a))%list).
Proof. unfold bind. destruct (f a) as [o t']. reflexivity. Qed.

Lemma bind_emit {B} (e : event) (k : M B) :
  bind (emit e) (fun _ => k) = (fst k, e :: snd k).
Proof. unfold emit. rewrite bind_returns. reflexivity. Qed.

Lemma bind_assoc {A B C} (m : M A) (f : A -> M B) (g : B -> M C) :
  bind (bind m f) g = bind m (fun a => bind (f a) g).
Proof.
  destruct m as [[a| | |] t]; simpl; try reflexivity.
  destruct (f a) as [[x| | |] t1]; simpl; try reflexivity.
  destruct (g x) as [o t2]. rewrite app_assoc. reflexivity.
Qed.

(** A call that leaves one event and hands its answer on. *)
Ltac run_call := rewrite bind_assoc, bind_emit, bind_ret.

(** One step of the search: report, probe, continue. *)
Lemma probe_step {B} (w : World) (dev path : string) (k : bool -> M B) :
  bind (report w dev path) (fun _ => bind (file_test_open w path) k)
  = (fst (k (openable w path)),
     (probe_events w dev path ++ snd (k (openable w path)))%list).
Proof.
  unfold report, file_test_open, probe_events, openable, looking_for, diagnostic.
  destruct (verbose w); simpl;
    destruct (k _) as [o t]; reflexivity.
Qed.

(** ** The shape of [find_chipdb] *)

Section FindChipdb.

Variable b : Build.
Variable w : World.
Variable dev : string.

(** Steps two and three, as they stand in the source. *)
Lemma steps_from_prefix :
  (report w dev (prefixpath_of b dev) ;;
   hit <- file_test_open w (prefixpath_of b dev) ;;
   if hit then ret (prefixpath_of b dev)
   else
     dir <- proc_self_dirname b w ;;
     report w dev (relbinarypath_of b dir dev) ;;
     hit <- file_test_open w (relbinarypath_of b dir dev) ;;
     if hit then ret (relbinarypath_of b dir dev) else ret "")
  = from_prefix b w dev.
Proof.
  unfold from_prefix. cbv zeta. rewrite probe_step.
  destruct (openable w (prefixpath_of b dev)).
  - simpl. rewrite app_nil_r. reflexivity.
  - destruct (proc_self_dirname b w) as [[dir| | |] t];
      try reflexivity.
    rewrite bind_returns, probe_step.
    destruct (openable w (relbinarypath_of b dir dev)); simpl;
      rewrite ?app_nil_r; reflexivity.
Qed.

Lemma find_chipdb_skips_home :
  PREFIX_in_home b = false ->
  find_chipdb b w dev = from_prefix b w dev.
Proof.
  intros Hp. unfold find_chipdb. rewrite Hp, bind_ret.
  cbv zeta. apply steps_from_prefix.
Qed.

Lemma find_chipdb_through_home (home : string) (t0 : list event) :
  PREFIX_in_home b = true ->
  homepath_env b w = (Returns home, t0) ->
  find_chipdb b w dev =
    if openable w (homepath_of b home dev) then
      (Returns (homepath_of b home dev),
       (t0 ++ probe_events w dev (homepath_of b home dev))%list)
    else
      (fst (from_prefix b w dev),
       ((t0 ++ probe_events w dev (homepath_of b home dev))
        ++ snd (from_prefix b w dev))%list).
Proof.
  intros Hp Hh. unfold find_chipdb. rewrite Hp, Hh.
  rewrite !bind_assoc, bind_returns. cbv zeta.
  rewrite !bind_assoc, probe_step.
  destruct (openable w (homepath_of b home dev)).
  - rewrite !bind_ret. simpl. rewrite !app_nil_r. reflexivity.
  - rewrite !bind_ret. rewrite steps_from_prefix. simpl.
    rewrite app_assoc. reflexivity.
Qed.

Lemma find_chipdb_home_undefined (t0 : list event) :
  PREFIX_in_home b = true ->
  homepath_env b w = (Undefined, t0) ->
  find_chipdb b w dev = (Undefined, t0).
Proof.
  intros Hp Hh. unfold find_chipdb. rewrite Hp, Hh. reflexivity.
Qed.

End FindChipdb.

(** ** [find_chipdb] is the ordered search of the specification *)

Lemma first_openable_cons (w : World) (dev : string) (c : M string)
    (rest : list (M string)) :
  first_openable w dev (c :: rest)
  = (path <- c ;;
     report w dev path ;;
     hit <- file_test_open w path ;;
     if hit then ret path else first_openable w dev rest).
Proof. reflexivity. Qed.

Lemma first_openable_tail (b : Build) (w : World) (dev : string) :
  first_openable w dev
    [prefix_candidate b dev; relbinary_candidate b w dev]
  = from_prefix b w dev.
Proof.
  rewrite <- steps_from_prefix.
  unfold first_openable, prefix_candidate, relbinary_candidate.
  rewrite bind_ret.
  rewrite !probe_step.
  destruct (openable w (prefixpath_of b dev)); [reflexivity|].
  rewrite bind_assoc.
  destruct (proc_self_dirname b w) as [[dir| | |] t]; try reflexivity.
  rewrite !bind_returns, bind_ret, !probe_step.
  destruct (openable w (relbinarypath_of b dir dev)); reflexivity.
Qed.

Lemma find_chipdb_refines (b : Build) (w : World) (dev : string) :
  find_chipdb b w dev = first_openable w dev (candidates b w dev).
Proof.
  unfold candidates.
  destruct (PREFIX_in_home b) eqn:Hp.
  - cbn [app]. 
    destruct (homepath_env b w) as [[home| | |] t0] eqn:Hh.
    + rewrite (@find_chipdb_through_home b w dev home t0 Hp Hh).
      rewrite first_openable_cons. unfold home_candidate. rewrite Hh.
      rewrite bind_assoc, bind_returns, bind_ret, probe_step.
      rewrite first_openable_tail.
      destruct (openable w (homepath_of b home dev)); simpl.
      * rewrite app_nil_r. reflexivity.
      * rewrite app_assoc. reflexivity.
    + unfold find_chipdb. rewrite Hp. cbn [first_openable].
      unfold home_candidate. rewrite Hh. reflexivity.
    + unfold find_chipdb. rewrite Hp. cbn [first_openable].
      unfold home_candidate. rewrite Hh. reflexivity.
    + unfold find_chipdb. rewrite Hp. cbn [first_openable].
      unfold home_candidate. rewrite Hh. reflexivity.
  - cbn [app]. rewrite first_openable_tail.
    apply find_chipdb_skips_home; assumption.
Qed.

Lemma PREFIX_in_home_prefix (b : Build) :
  PREFIX_in_home b = String.prefix "~/" (PREFIX b).
Proof.
  unfold PREFIX_in_home, char_at, slash.
  destruct (PREFIX b) as [|c0 [|c1 r]]; cbn -[ascii_dec Ascii.eqb].
  - reflexivity.
  - destruct (ascii_dec "~" c0) as [<-|Hn]; [reflexivity|].
    destruct (Ascii.eqb_spec c0 "~"); [congruence | reflexivity].
  - destruct (ascii_dec "~" c0) as [<-|Hn].
    + destruct (ascii_dec "/" c1) as [<-|Hn1].
      * destruct r; reflexivity.
      * destruct (Ascii.eqb_spec c1 "/"); [congruence | reflexivity].
    + destruct (Ascii.eqb_spec c0 "~"); [congruence | reflexivity].
Qed.

(** C1.  [find_chipdb] is the first-that-opens search over its candidates
    in the order home override, fixed prefix, relative to the executable:
    each candidate is built, reported and probed only if every earlier one
    failed to open.  When the home candidate opens it is returned and the
    trace ends with its probe, whatever exists at the other two places;
    when the home step is skipped or misses and the fixed-prefix candidate
    opens, that one is returned and the trace ends with its probe, with no
    call to [proc_self_dirname]; the third candidate is returned only
    after the fixed-prefix probe has failed. *)
Theorem find_chipdb_priority_order (b : Build) (w : World) (dev : string) :
  find_chipdb b w dev = first_openable w dev (candidates b w dev)
  /\ (forall home t0,
        PREFIX_in_home b = true ->
        homepath_env b w = (Returns home, t0) ->
        openable w (homepath_of b home dev) = true ->
        find_chipdb b w dev =
          (Returns (homepath_of b home dev),
           (t0 ++ probe_events w dev (homepath_of b home dev))%list))
  /\ (forall t0,
        home_step_passed b w dev t0 ->
        openable w (prefixpath_of b dev) = true ->
        find_chipdb b w dev =
          (Returns (prefixpath_of b dev),
           (t0 ++ probe_events w dev (prefixpath_of b dev))%list))
  /\ (forall t0 dir t1,
        home_step_passed b w dev t0 ->
        openable w (prefixpath_of b dev) = false ->
        proc_self_dirname b w = (Returns dir, t1) ->
        openable w (relbinarypath_of b dir dev) = true ->
        find_chipdb b w dev =
          (Returns (relbinarypath_of b dir dev),
           (t0 ++ probe_events w dev (prefixpath_of b dev) ++ t1
            ++ probe_events w dev (relbinarypath_of b dir dev))%list)).
Proof.
  split; [apply find_chipdb_refines|].
  split; [|split].
  - intros home t0 Hp Hh Ho.
    rewrite (@find_chipdb_through_home b w dev home t0 Hp Hh), Ho.
    reflexivity.
  - intros t0 [[Hp ->]|[Hp (home & t & Hh & Ho & ->)]] Hf.
    + rewrite find_chipdb_skips_home by assumption.
      unfold from_prefix. rewrite Hf. reflexivity.
    + rewrite (@find_chipdb_through_home b w dev home t Hp Hh), Ho.
      unfold from_prefix. rewrite Hf. reflexivity.
  - intros t0 dir t1 [[Hp ->]|[Hp (home & t & Hh & Ho & ->)]] Hf Hd Hr.
    + rewrite find_chipdb_skips_home by assumption.
      unfold from_prefix. rewrite Hf, Hd, Hr. reflexivity.
    + rewrite (@find_chipdb_through_home b w dev home t Hp Hh), Ho.
      unfold from_prefix. rewrite Hf, Hd, Hr. reflexivity.
Qed.

Lemma find_chipdb_priority_order_witness :
  find_chipdb home_build
    (desk_world ["/home/u/.local/icebox/chipdb-hx8k.txt";
                 "~/.local/share/icebox/chipdb-hx8k.txt"]) "hx8k"
  = (Returns "/home/u/.local/icebox/chipdb-hx8k.txt",
     [EvGetenv "HOME"; EvFopen "/home/u/.local/icebox/chipdb-hx8k.txt"])
  /\ find_chipdb usr_build
       (desk_world ["/usr/local/share/icebox/chipdb-hx8k.txt";
                    "/opt/ice/bin/../share/icebox/chipdb-hx8k.txt"]) "hx8k"
     = (Returns "/usr/local/share/icebox/chipdb-hx8k.txt",
        [EvFopen "/usr/local/share/icebox/chipdb-hx8k.txt"])
  /\ find_chipdb home_build
       (desk_world ["/opt/ice/bin/../share/icebox/chipdb-hx8k.txt"]) "hx8k"
     = (Returns "/opt/ice/bin/../share/icebox/chipdb-hx8k.txt",
        [EvGetenv "HOME"; EvFopen "/home/u/.local/icebox/chipdb-hx8k.txt";
         EvFopen "~/.local/share/icebox/chipdb-hx8k.txt";
         EvPlatform "readlink";
         EvFopen "/opt/ice/bin/../share/icebox/chipdb-hx8k.txt"]).
Proof.
  split; [|split].
  - exact (proj1 (proj2 (find_chipdb_priority_order home_build
             (desk_world ["/home/u/.local/icebox/chipdb-hx8k.txt";
                          "~/.local/share/icebox/chipdb-hx8k.txt"]) "hx8k"))
             "/home/u" [EvGetenv "HOME"] eq_refl eq_refl eq_refl).
  - exact (proj1 (proj2 (proj2 (find_chipdb_priority_order usr_build
             (desk_world ["/usr/local/share/icebox/chipdb-hx8k.txt";
                          "/opt/ice/bin/../share/icebox/chipdb-hx8k.txt"])
             "hx8k")))
             [] (or_introl (conj eq_refl eq_refl)) eq_refl).
  - refine (proj2 (proj2 (proj2 (find_chipdb_priority_order home_build
             (desk_world ["/opt/ice/bin/../share/icebox/chipdb-hx8k.txt"])
             "hx8k")))
             [EvGetenv "HOME"; EvFopen "/home/u/.local/icebox/chipdb-hx8k.txt"]
             "/opt/ice/bin/" [EvPlatform "readlink"] _ eq_refl eq_refl eq_refl).
    right. split; [reflexivity|].
    exists "/home/u", [EvGetenv "HOME"].
    split; [reflexivity|]. split; reflexivity.
Defined.

(** ** The fixed-prefix template *)

(** C5.  With [PREFIX] = "/opt/tool" and [CHIPDB_SUBDIR] = "share/chipdb",
    the fixed-prefix candidate for "hx8k" is
    "/opt/tool/share/share/chipdb/chipdb-hx8k.txt" (the template puts
    "/share/" between the two), and when that file opens [find_chipdb]
    returns exactly this path after probing nothing else. *)
Theorem find_chipdb_doubled_share (b : Build) (w : World) :
  PREFIX b = "/opt/tool" ->
  CHIPDB_SUBDIR b = "share/chipdb" ->
  fopen_r w "/opt/tool/share/share/chipdb/chipdb-hx8k.txt" = Stream ->
  prefixpath_of b "hx8k" = "/opt/tool/share/share/chipdb/chipdb-hx8k.txt"
  /\ find_chipdb b w "hx8k"
     = (Returns "/opt/tool/share/share/chipdb/chipdb-hx8k.txt",
        probe_events w "hx8k" "/opt/tool/share/share/chipdb/chipdb-hx8k.txt").
Proof.
  intros Hp Hs Hf.
  assert (Hpath : prefixpath_of b "hx8k"
                  = "/opt/tool/share/share/chipdb/chipdb-hx8k.txt").
  { unfold prefixpath_of. rewrite Hp, Hs. reflexivity. }
  split; [exact Hpath|].
  rewrite find_chipdb_skips_home.
  - unfold from_prefix. rewrite Hpath.
    unfold openable. change (c_str "/opt/tool/share/share/chipdb/chipdb-hx8k.txt")
      with "/opt/tool/share/share/chipdb/chipdb-hx8k.txt".
    rewrite Hf. reflexivity.
  - unfold PREFIX_in_home. rewrite Hp. reflexivity.
Qed.

Lemma find_chipdb_doubled_share_witness :
  prefixpath_of (build Linux "/opt/tool" "share/chipdb") "hx8k"
  = "/opt/tool/share/share/chipdb/chipdb-hx8k.txt"
  /\ find_chipdb (build Linux "/opt/tool" "share/chipdb")
       (desk_world ["/opt/tool/share/share/chipdb/chipdb-hx8k.txt"]) "hx8k"
     = (Returns "/opt/tool/share/share/chipdb/chipdb-hx8k.txt",
        [EvFopen "/opt/tool/share/share/chipdb/chipdb-hx8k.txt"]).
Proof.
  exact (find_chipdb_doubled_share (build Linux "/opt/tool" "share/chipdb")
           (desk_world ["/opt/tool/share/share/chipdb/chipdb-hx8k.txt"])
           eq_refl eq_refl eq_refl).
Defined.

(** ** Trimming to the last separator *)

Lemma substring_0_length (n : nat) (s : string) :
  n <= String.length s -> String.length (String.substring 0 n s) = n.
Proof.
  revert s. induction n as [|n IH]; intros [|c s] Hn; simpl in *;
    try reflexivity; try lia.
  rewrite IH by lia. reflexivity.
Qed.

Lemma get_substring_0 (i n : nat) (s : string) :
  i < n -> String.get i (String.substring 0 n s) = String.get i s.
Proof.
  revert i s. induction n as [|n IH]; intros i [|c s] Hi; simpl; try lia;
    try reflexivity.
  destruct i as [|i]; simpl; [reflexivity|]. apply IH. lia.
Qed.

Lemma last_char_substring (n : nat) (s : string) :
  n < String.length s ->
  last_char (String.substring 0 (S n) s) = String.get n s.
Proof.
  intros Hn. unfold last_char.
  rewrite substring_0_length by lia.
  apply get_substring_0. lia.
Qed.

Lemma dirname_len_le (path : string) (buflen : nat) :
  dirname_len path buflen <= buflen.
Proof.
  induction buflen as [|n IH]; simpl; [lia|].
  destruct (Ascii.eqb (char_at n path) slash); lia.
Qed.

(** The loop stops at a separator or at the start of the buffer. *)
Lemma dirname_len_stops (path : string) (buflen : nat) :
  dirname_len path buflen = 0
  \/ exists k, dirname_len path buflen = S k /\ char_at k path = slash.
Proof.
  induction buflen as [|n IH]; simpl; [left; reflexivity|].
  destruct (Ascii.eqb_spec (char_at n path) slash) as [E|E].
  - right. exists n. split; [reflexivity | exact E].
  - exact IH.
Qed.

(** Nothing it stepped over was a separator. *)
Lemma dirname_len_last (path : string) (buflen i : nat) :
  dirname_len path buflen <= i -> i < buflen -> char_at i path <> slash.
Proof.
  induction buflen as [|n IH]; simpl; [lia|].
  destruct (Ascii.eqb_spec (char_at n path) slash) as [E|E]; intros Hlo Hhi.
  - lia.
  - destruct (Nat.eq_dec i n) as [->|Hne]; [exact E|].
    apply IH; lia.
Qed.

Lemma dirname_shape (path : string) (buflen : nat) :
  buflen <= String.length path ->
  dirname path buflen = "" \/ last_char (dirname path buflen) = Some slash.
Proof.
  intros Hb. unfold dirname.
  destruct (dirname_len_stops path buflen) as [E|(k & E & Hk)].
  - left. rewrite E. destruct path; reflexivity.
  - right. rewrite E.
    assert (Hle := dirname_len_le path buflen).
    rewrite last_char_substring by lia.
    unfold char_at in Hk.
    destruct (String.get k path) as [c|] eqn:G.
    + congruence.
    + exfalso. discriminate Hk.
Qed.

(** ** The Windows buffer *)

Lemma store_unit_length (i : nat) (u : N) (a : list N) :
  List.length (store_unit i u a) = List.length a.
Proof.
  revert i. induction a as [|x a IH]; intros [|i]; simpl; auto.
Qed.

Lemma nth_store_unit_same (i : nat) (u : N) (a : list N) :
  i < List.length a -> nth i (store_unit i u a) 0%N = u.
Proof.
  revert i. induction a as [|x a IH]; intros [|i] Hi; simpl in *;
    try lia; auto with arith.
Qed.

Lemma nth_store_unit_other (i j : nat) (u : N) (a : list N) :
  i <> j -> nth i (store_unit j u a) 0%N = nth i a 0%N.
Proof.
  revert i j. induction a as [|x a IH]; intros [|i] [|j] Hne; simpl;
    try reflexivity; try congruence.
  apply IH. congruence.
Qed.

Lemma firstn_store_unit (k j : nat) (u : N) (a : list N) :
  k <= j -> firstn k (store_unit j u a) = firstn k a.
Proof.
  revert k j. induction a as [|x a IH]; intros [|k] [|j] Hk; simpl;
    try reflexivity; try lia.
  rewrite IH by lia. reflexivity.
Qed.

Lemma units_strlen_first_zero (a : list N) (n : nat) :
  units_strlen a = Some n -> first_zero a n.
Proof.
  revert n. induction a as [|u a IH]; intros n H; simpl in H; [discriminate|].
  destruct (N.eqb_spec u 0) as [->|Hu].
  - inversion H; subst. repeat split; simpl; [lia | intros i Hi; lia].
  - destruct (units_strlen a) as [m|]; [|discriminate].
    inversion H; subst. destruct (IH m eq_refl) as (Hl & Hz & Hnz).
    repeat split; simpl; [lia | exact Hz |].
    intros [|i] Hi; [exact Hu | apply Hnz; lia].
Qed.

Lemma narrow_units_first_zero (a : list N) (n : nat) :
  first_zero a n -> narrow_units a = Some (narrow_string (firstn n a)).
Proof.
  revert n. induction a as [|u a IH]; intros n (Hl & Hz & Hnz);
    simpl in Hl; [lia|].
  destruct n as [|n]; simpl in *.
  - subst u. reflexivity.
  - destruct (N.eqb_spec u 0) as [->|Hu].
    + exfalso. apply (Hnz 0); [lia | reflexivity].
    + rewrite (IH n); [reflexivity|].
      repeat split; [lia | exact Hz |].
      intros i Hi. apply (Hnz (S i)). lia.
Qed.

(** The trimming loop, then the copying loop: the result is a prefix of
    the units, narrowed, and that prefix is empty or ends in a separator. *)
Lemma trim_shortpath_narrow (n : nat) (a : list N) :
  first_zero a n ->
  exists k,
    snd (trim_shortpath a n) = k /\ k <= n
    /\ narrow_units (fst (trim_shortpath a n))
       = Some (narrow_string (firstn k a))
    /\ (k = 0 \/ exists j, k = S j
                   /\ is_separator_unit (nth j a 0%N) = true).
Proof.
  revert a. induction n as [|j IH]; intros a Hz.
  - exists 0. simpl.
    split; [reflexivity|]. split; [lia|]. split.
    + apply (narrow_units_first_zero Hz).
    + left; reflexivity.
  - simpl. fold (is_separator_unit (nth j a 0%N)).
    destruct (is_separator_unit (nth j a 0%N)) eqn:Hs.
    + exists (S j). simpl.
      split; [reflexivity|]. split; [lia|]. split.
      * apply (narrow_units_first_zero Hz).
      * right. exists j. split; [reflexivity | exact Hs].
    + destruct Hz as (Hl & Hzero & Hnz).
      destruct (IH (store_unit j 0%N a)) as (k & Ek & Hk & Hn & Hsep).
      { split; [|split].
        - rewrite store_unit_length. lia.
        - apply nth_store_unit_same. lia.
        - intros i Hi. rewrite nth_store_unit_other by lia.
          apply Hnz. lia. }
      exists k.
      split; [exact Ek|]. split; [lia|]. split.
      * rewrite Hn, firstn_store_unit by lia. reflexivity.
      * destruct Hsep as [->|(i & -> & Hi)]; [left; reflexivity|].
        right. exists i. split; [reflexivity|].
        rewrite nth_store_unit_other in Hi by lia. exact Hi.
Qed.

Lemma last_char_narrow_string (j : nat) (a : list N) :
  j < List.length a ->
  last_char (narrow_string (firstn (S j) a)) = Some (narrow (nth j a 0%N)).
Proof.
  revert j. induction a as [|u a IH]; intros j Hj; simpl in Hj; [lia|].
  destruct j as [|j].
  - reflexivity.
  - specialize (IH j ltac:(lia)).
    change (firstn (S (S j)) (u :: a)) with (u :: firstn (S j) a).
    change (nth (S j) (u :: a) 0%N) with (nth j a 0%N).
    rewrite <- IH. unfold last_char. simpl.
    destruct a as [|v a]; [simpl in Hj; lia|]. simpl. reflexivity.
Qed.

Lemma narrow_separator (u : N) :
  is_separator_unit u = true -> narrow u = slash \/ narrow u = backslash.
Proof.
  unfold is_separator_unit, unit_is. intros H.
  apply orb_true_iff in H. destruct H as [H|H];
    apply N.eqb_eq in H; subst u; [left | right]; reflexivity.
Qed.

(** ** Tokenising the search path *)

Lemma append_nil_r (s : string) : s ++ "" = s.
Proof. induction s as [|c s IH]; simpl; [|rewrite IH]; reflexivity. Qed.

Lemma append_assoc (s1 s2 s3 : string) : (s1 ++ s2) ++ s3 = s1 ++ (s2 ++ s3).
Proof. induction s1 as [|c s1 IH]; simpl; [|rewrite IH]; reflexivity. Qed.

Lemma append_length (s1 s2 : string) :
  String.length (s1 ++ s2) = String.length s1 + String.length s2.
Proof. induction s1 as [|c s1 IH]; simpl; [|rewrite IH]; reflexivity. Qed.

(** Cutting a token off a string that does not start with a colon. *)
Lemma cut_at_delim_entries (s entry : string) :
  let (tok, rest) := cut_at_delim s in
  String.length rest <= String.length s
  /\ (String.length s = 0 \/ String.length rest < String.length s)
  /\ path_entries_from s entry
     = match entry ++ tok with
       | "" => path_entries_from rest ""
       | e => e :: path_entries_from rest ""
       end.
Proof.
  revert entry. induction s as [|c s IH]; intros entry; simpl.
  - rewrite append_nil_r. split; [lia|]. split; [left; reflexivity|].
    destruct entry; reflexivity.
  - destruct (Ascii.eqb c colon) eqn:Ec.
    + rewrite append_nil_r. simpl. split; [lia|]. split; [right; lia|].
      destruct entry; reflexivity.
    + specialize (IH (entry ++ String c "")).
      destruct (cut_at_delim s) as [tok rest].
      destruct IH as (Hl & _ & IH). simpl.
      split; [lia|]. split; [right; lia|].
      rewrite IH, append_assoc. reflexivity.
Qed.

Lemma skip_delim_entries (s : string) :
  path_entries_from s "" = path_entries_from (skip_delim s) ""
  /\ String.length (skip_delim s) <= String.length s
  /\ char_at 0 (skip_delim s) <> colon.
Proof.
  induction s as [|c s IH]; simpl.
  - repeat split; [lia | discriminate].
  - destruct (Ascii.eqb_spec c colon) as [E|E].
    + destruct IH as (H1 & H2 & H3). repeat split; [exact H1 | lia | exact H3].
    + simpl. destruct (Ascii.eqb_spec c colon); [contradiction|].
      repeat split; [lia | exact E].
Qed.

Lemma next_token_entries (s : string) :
  match next_token s with
  | (Some tok, rest) =>
      path_entries s = tok :: path_entries rest
      /\ String.length rest < String.length s
  | (None, _) => path_entries s = []
  end.
Proof.
  unfold next_token, path_entries.
  destruct (skip_delim_entries s) as (H1 & H2 & H3). rewrite H1.
  destruct (skip_delim s) as [|c s'] eqn:Es; [reflexivity|].
  assert (Hc : Ascii.eqb c colon = false).
  { destruct (Ascii.eqb_spec c colon) as [E|E]; [|reflexivity].
    exfalso. apply H3. exact E. }
  pose proof (cut_at_delim_entries (String c s') "") as Hcut.
  destruct (cut_at_delim (String c s')) as [tok rest] eqn:Ecut.
  destruct Hcut as (Hl & Hlt & He).
  simpl in Ecut. rewrite Hc in Ecut.
  destruct (cut_at_delim s') as [tok' rest'].
  inversion Ecut; subst tok rest. 
  simpl in He. split; [exact He|].
  destruct Hlt as [Hlt|Hlt]; simpl in *; lia.
Qed.

Example path_entries_plain :
  path_entries "/a:/b:/c" = ["/a"; "/b"; "/c"].
Proof. reflexivity. Qed.

Example path_entries_skips_empty :
  path_entries "::/usr/bin:::/bin:" = ["/usr/bin"; "/bin"].
Proof. reflexivity. Qed.

(** ** The search of [PATH] on OpenBSD *)

Section PathSearch.

Variable b : Build.
Variable w : World.
Variable comm : string.

Lemma stat_executable_eq (dir : string) :
  stat_executable w (snprintf_join b dir comm)
  = (Returns (executable_at b w comm dir),
     [EvStat (snprintf_join b dir comm)]).
Proof. reflexivity. Qed.

(** The loop visits the entries of what is left of the string, and the
    bound it is given is never reached. *)
Lemma path_loop_entries (fuel : nat) (tok sp : string) :
  String.length sp < fuel ->
  path_loop b w fuel comm (Some tok) (Some sp)
  = first_executable b w comm (tok :: path_entries sp).
Proof.
  revert tok sp. induction fuel as [|fuel IH]; intros tok sp Hf; [lia|].
  cbn [path_loop first_executable].
  assert (E : bind (strtok_r None (Some sp))
                (fun r => let (path', sp') := r in
                          path_loop b w fuel comm path' sp')
              = first_executable b w comm (path_entries sp)).
  { unfold strtok_r. pose proof (next_token_entries sp) as Hn.
    destruct (next_token sp) as [[tok'|] rest]; rewrite bind_ret.
    - destruct Hn as (-> & Hl). apply IH. lia.
    - rewrite Hn. destruct fuel; reflexivity. }
  rewrite !stat_executable_eq, !bind_returns.
  destruct (executable_at b w comm tok); [reflexivity|].
  rewrite E. reflexivity.
Qed.



(** Whatever the entries, the search returns. *)
Lemma first_executable_returns (entries : list string) :
  exists found, fst (first_executable b w comm entries) = Returns found.
Proof.
  induction entries as [|m entries IH]; [exists None; reflexivity|].
  cbn [first_executable]. rewrite stat_executable_eq, bind_returns.
  destruct (executable_at b w comm m); [eexists; reflexivity|].
  exact IH.
Qed.

End PathSearch.

Lemma proc_self_dirname_openbsd_search (b : Build) (w : World)
    (len : nat) (argv0 : string) (args : list string) (p : string) :
  kern_proc_argv_len w = Ok len ->
  heap w len = Ok tt ->
  kern_proc_argv w = Ok (argv0 :: args) ->
  Ascii.eqb (char_at 0 (c_str argv0)) slash
  || Ascii.eqb (char_at 0 (c_str argv0)) "."%char = false ->
  env w "PATH" = Some p ->
  heap w (S (String.length (c_str p))) = Ok tt ->
  proc_self_dirname_openbsd b w
  = (fst (openbsd_found b w argv0 p),
     (openbsd_prelude ++ snd (openbsd_found b w argv0 p))%list).
Proof.
  intros Hl Hm Ha Hc Hp Hs.
  unfold proc_self_dirname_openbsd, sysctl, getenv, strdup.
  rewrite Hl, bind_assoc, bind_emit, bind_ret, Hm.
  rewrite Ha, bind_assoc, bind_emit, bind_ret.
  rewrite Hc, Hp.
  rewrite !bind_assoc, bind_emit, !bind_ret, Hs, !bind_ret.
  unfold pointer, strtok_r, openbsd_found.
  pose proof (next_token_entries (c_str p)) as Hn.
  destruct (next_token (c_str p)) as [[tok|] rest]; rewrite bind_ret.
  - destruct Hn as (-> & Hlt). rewrite path_loop_entries by lia. reflexivity.
  - rewrite Hn. reflexivity.
Qed.

(** ** Directory of a joined path *)

Lemma dirname_len_ge (path : string) (buflen i : nat) :
  char_at i path = slash -> i < buflen -> S i <= dirname_len path buflen.
Proof.
  intros Hc. induction buflen as [|n IH]; intros Hi; [lia|]. simpl.
  destruct (Ascii.eqb_spec (char_at n path) slash) as [E|E]; [lia|].
  destruct (Nat.eq_dec i n) as [->|Hne]; [contradiction|].
  apply IH. lia.
Qed.

Lemma substring_0_ge (n : nat) (s : string) :
  String.length s <= n -> String.substring 0 n s = s.
Proof.
  revert n. induction s as [|c s IH]; intros [|n] Hn; simpl in *;
    try reflexivity; try lia.
  rewrite IH by lia. reflexivity.
Qed.


Lemma char_at_app_r (s1 s2 : string) (i : nat) :
  char_at (String.length s1 + i) (s1 ++ s2) = char_at i s2.
Proof.
  unfold char_at. induction s1 as [|c s1 IH]; simpl; [reflexivity | exact IH].
Qed.

Lemma char_at_substring_0 (i n : nat) (s : string) :
  i < n -> char_at i (String.substring 0 n s) = char_at i s.
Proof. intros Hi. unfold char_at. rewrite get_substring_0 by lia. reflexivity. Qed.






(** ** What the resolver leaves in the trace, and that it ends *)

Lemma first_executable_events (b : Build) (w : World) (comm : string)
    (entries : list string) :
  forallb resolver_event (snd (first_executable b w comm entries)) = true.
Proof.
  induction entries as [|m entries IH]; [reflexivity|].
  cbn [first_executable]. rewrite stat_executable_eq, bind_returns.
  destruct (executable_at b w comm m); [reflexivity|].
  simpl. exact IH.
Qed.

Lemma openbsd_found_events (b : Build) (w : World) (argv0 p : string) :
  forallb resolver_event (snd (openbsd_found b w argv0 p)) = true
  /\ exists d, fst (openbsd_found b w argv0 p) = Returns d
               /\ (d = "" \/ last_char d = Some slash).
Proof.
  unfold openbsd_found.
  pose proof (first_executable_events b w (c_str argv0)
                (path_entries (c_str p))) as He.
  destruct (first_executable_returns b w (c_str argv0)
              (path_entries (c_str p))) as [found Hf].
  destruct (first_executable b w (c_str argv0) (path_entries (c_str p)))
    as [o t]. simpl in He, Hf. subst o.
  rewrite bind_returns.
  destruct found as [epath|]; simpl; rewrite app_nil_r;
    (split; [exact He | eexists; split; [reflexivity|]]).
  - apply dirname_shape. apply le_n.
  - left; reflexivity.
Qed.

(** The ways the OpenBSD resolver can end, with the trace of each. *)
Lemma proc_self_dirname_openbsd_cases (b : Build) (w : World) :
  let r := proc_self_dirname_openbsd b w in
  forallb resolver_event (snd r) = true
  /\ (fst r = Exits \/ fst r = Undefined
      \/ exists d, fst r = Returns d
                   /\ (d = "" \/ last_char d = Some slash)).
Proof.
  destruct (kern_proc_argv_len w) as [len|e1] eqn:Hl.
  2:{ unfold proc_self_dirname_openbsd, sysctl. rewrite Hl.
      split; [reflexivity | left; reflexivity]. }
  destruct (heap w len) as [[]|e2] eqn:Hm.
  2:{ unfold proc_self_dirname_openbsd, sysctl. rewrite Hl.
      run_call; rewrite Hm.
      split; [reflexivity | left; reflexivity]. }
  destruct (kern_proc_argv w) as [[|argv0 args]|e3] eqn:Ha.
  1,3: unfold proc_self_dirname_openbsd, sysctl; rewrite Hl;
       rewrite bind_assoc, bind_emit, bind_ret, Hm, Ha;
       (split; [reflexivity | auto]).
  destruct (Ascii.eqb (char_at 0 (c_str argv0)) slash
            || Ascii.eqb (char_at 0 (c_str argv0)) "."%char) eqn:Hc.
  { unfold proc_self_dirname_openbsd, sysctl. rewrite Hl.
    run_call; rewrite Hm, Ha.
    run_call; rewrite Hc.
    run_call.
    destruct (realpath_r w (c_str argv0)) as [resolved|];
      (split; [reflexivity | right; right; eexists; split; [reflexivity|]]).
    - apply dirname_shape. apply le_n.
    - left; reflexivity. }
  destruct (env w "PATH") as [p|] eqn:Hp.
  2:{ unfold proc_self_dirname_openbsd, sysctl, getenv, strdup. rewrite Hl.
      run_call; rewrite Hm, Ha.
      run_call; rewrite Hc, Hp.
      split; [reflexivity | right; left; reflexivity]. }
  destruct (heap w (S (String.length (c_str p)))) as [[]|e4] eqn:Hs.
  2:{ unfold proc_self_dirname_openbsd, sysctl, getenv, strdup. rewrite Hl.
      run_call; rewrite Hm, Ha.
      run_call; rewrite Hc, Hp.
      rewrite !bind_assoc, bind_emit, !bind_ret, Hs, !bind_ret.
      split; [reflexivity | right; left; reflexivity]. }
  cbv zeta.
  rewrite (@proc_self_dirname_openbsd_search b w len argv0 args p
             Hl Hm Ha Hc Hp Hs).
  destruct (openbsd_found_events b w argv0 p) as (He & d & Hd & Hshape).
  cbn [fst snd]. split.
  - rewrite forallb_app, He. reflexivity.
  - right; right. exists d. split; [exact Hd | exact Hshape].
Qed.

Lemma proc_self_dirname_apple_cases (w : World) :
  proc_self_dirname_apple w
  = match heap w (S (String.length (c_str (ns_executable_path w)))) with
    | Ok _ =>
        let path := c_str (ns_executable_path w) ++ String NUL "" in
        (Returns (dirname path (String.length path)),
         [EvPlatform "_NSGetExecutablePath";
          EvPlatform "_NSGetExecutablePath"])
    | Err _ =>
        (Undefined,
         [EvPlatform "_NSGetExecutablePath";
          EvPlatform "_NSGetExecutablePath"])
    end.
Proof.
  unfold proc_self_dirname_apple, NSGetExecutablePath_loop,
    NSGetExecutablePath, realloc.
  cbv zeta. rewrite append_length. simpl String.length. rewrite Nat.add_1_r.
  set (exe := c_str (ns_executable_path w)).
  assert (H0 : Nat.ltb 0 (S (String.length exe)) = true) by reflexivity.
  assert (Hn : Nat.ltb (S (String.length exe)) (S (String.length exe)) = false)
    by apply Nat.ltb_irrefl.
  generalize dependent (S (String.length exe)). intros n H0 Hn.
  unfold bind, emit, ret, undefined. rewrite H0, Hn.
  destruct (heap w n); reflexivity.
Qed.

Lemma proc_self_dirname_win32_shape (b : Build) (w : World) :
  let r := proc_self_dirname_win32 b w in
  forallb resolver_event (snd r) = true
  /\ match fst r with
     | Returns d =>
         d = "" \/ last_char d = Some slash \/ last_char d = Some backslash
     | Exits | Undefined => True
     | OutOfFuel => False
     end.
Proof.
  unfold proc_self_dirname_win32. rewrite bind_emit.
  destruct (N.eqb (GetModuleFileName_ret w) 0); [split; [reflexivity|exact I]|].
  rewrite bind_emit.
  destruct (N.eqb (GetShortPathName_ret w) 0); [split; [reflexivity|exact I]|].
  cbv zeta. set (shortpath := firstn (S (MAX_PATH b)) (shortpath_units w)).
  destruct (units_strlen shortpath) as [n|] eqn:Hn;
    [|split; [reflexivity|exact I]].
  apply units_strlen_first_zero in Hn.
  destruct (trim_shortpath_narrow Hn) as (k & _ & Hk & Hnarrow & Hsep).
  rewrite Hnarrow. cbn [fst snd ret]. split; [reflexivity|].
  destruct Hsep as [->|(j & -> & Hj)]; [left; reflexivity|].
  right. destruct Hn as (Hlen & _).
  rewrite last_char_narrow_string by lia.
  destruct (narrow_separator _ Hj) as [->| ->]; [left | right]; reflexivity.
Qed.

(** Every variant: the trace holds resolver events only, the bound of the
    model's loops is never reached, and a returned directory is empty or
    ends in a separator. *)
Lemma proc_self_dirname_shape (b : Build) (w : World) :
  let r := proc_self_dirname b w in
  forallb resolver_event (snd r) = true
  /\ match fst r with
     | Returns d => d = "" \/ ends_with_separator b d
     | Exits | Undefined => True
     | OutOfFuel => False
     end.
Proof.
  unfold proc_self_dirname, ends_with_separator.
  destruct (platform b) eqn:Hplat.
  - (* Linux *)
    unfold proc_self_dirname_linux, readlink.
    run_call.
    destruct (proc_self_exe w) as [target|e]; cbn [fst snd ret].
    + destruct (Nat.leb (PATH_MAX b) (String.length target));
        cbn [fst snd ret]; (split; [reflexivity|]); [exact I|].
      destruct (@dirname_shape (String.substring 0 (PATH_MAX b) target)
                  (String.length (String.substring 0 (PATH_MAX b) target))
                  (le_n _)) as [E|E]; auto.
    + split; [reflexivity | exact I].
  - (* FreeBSD *)
    unfold proc_self_dirname_freebsd, sysctl.
    run_call.
    destruct (kern_proc_pathname_len w) as [buflen|e];
      [|split; [reflexivity | exact I]].
    destruct (heap w buflen) as [[]|e]; [|split; [reflexivity | exact I]].
    run_call.
    destruct (kern_proc_pathname w) as [buffer|e];
      [|split; [reflexivity | exact I]].
    cbn [fst snd ret]. split; [reflexivity|].
    destruct (@dirname_shape buffer (String.length buffer) (le_n _)); auto.
  - (* Apple *)
    rewrite proc_self_dirname_apple_cases.
    destruct (heap w _); cbv zeta; cbn [fst snd];
      [|split; [reflexivity | exact I]].
    split; [reflexivity|].
    destruct (@dirname_shape (c_str (ns_executable_path w) ++ String NUL "")
                (String.length (c_str (ns_executable_path w) ++ String NUL ""))
                (le_n _)); auto.
  - (* Windows *)
    destruct (proc_self_dirname_win32_shape b w) as [He Hd].
    split; [exact He|].
    destruct (fst (proc_self_dirname_win32 b w)); auto.
    destruct Hd as [Hd|[Hd|Hd]]; auto.
  - (* OpenBSD *)
    destruct (proc_self_dirname_openbsd_cases b w) as [He Ho].
    split; [exact He|].
    destruct Ho as [-> |[-> |(d & -> & Hd)]]; try exact I.
    destruct Hd; auto.
  - (* Emscripten *)
    split; [reflexivity|]. right. left. reflexivity.
Qed.

(** ** The resolver's directory *)

Lemma proc_self_dirname_empty_directory_run :
  proc_self_dirname openbsd_build
    (openbsd_world (Some "/a:/b:/c") ["tool"] ["/opt/bin/tool"])
  = (Returns "",
     [EvPlatform "sysctl"; EvPlatform "sysctl"; EvGetenv "PATH";
      EvStat "/a/tool"; EvStat "/b/tool"; EvStat "/c/tool"]).
Proof. reflexivity. Qed.

Lemma proc_self_dirname_doubled_separator_run :
  proc_self_dirname openbsd_build
    (openbsd_world (Some "/a/:/b") ["tool"] ["/a//tool"])
  = (Returns "/a//",
     [EvPlatform "sysctl"; EvPlatform "sysctl"; EvGetenv "PATH";
      EvStat "/a//tool"]).
Proof. reflexivity. Qed.

(** C2, as stated, fails.  An OpenBSD process started as "tool" that is in
    no directory of its [PATH] gets the empty string, which ends with no
    separator; with the entry "/a/" in [PATH] and the tool in it, the
    result is "/a//", which ends with two. *)
Lemma proc_self_dirname_not_one_separator :
  ~ (forall b w d t,
       proc_self_dirname b w = (Returns d, t) ->
       ends_with_one_separator d = true)
  /\ (exists t,
        proc_self_dirname openbsd_build
          (openbsd_world (Some "/a:/b:/c") ["tool"] ["/opt/bin/tool"])
        = (Returns "", t)
        /\ ends_with_one_separator "" = false)
  /\ (exists t,
        proc_self_dirname openbsd_build
          (openbsd_world (Some "/a/:/b") ["tool"] ["/a//tool"])
        = (Returns "/a//", t)
        /\ ends_with_one_separator "/a//" = false).
Proof.
  split; [|split].
  - intros H.
    specialize (H _ _ _ _ proc_self_dirname_empty_directory_run).
    discriminate H.
  - eexists. split; [exact proc_self_dirname_empty_directory_run | reflexivity].
  - eexists. split;
      [exact proc_self_dirname_doubled_separator_run | reflexivity].
Qed.

(** C2, amended.  On every platform variant and in every process state,
    [proc_self_dirname] ends (the model's loop bounds are never reached),
    and when it returns, the string is empty or its last character is a
    path separator ('/', and on Windows also the backslash): nothing
    follows the last separator. *)
Theorem proc_self_dirname_directory_shape (b : Build) (w : World) :
  match fst (proc_self_dirname b w) with
  | Returns d => d = "" \/ ends_with_separator b d
  | Exits | Undefined => True
  | OutOfFuel => False
  end.
Proof. exact (proj2 (proc_self_dirname_shape b w)). Qed.

(** ** Truncation in the fixed-size buffers *)

Lemma proc_self_dirname_linux_eq (b : Build) (w : World) :
  proc_self_dirname_linux b w
  = match proc_self_exe w with
    | Ok target =>
        if Nat.leb (PATH_MAX b) (String.length target) then
          (Exits,
           [EvPlatform "readlink";
            EvStderr (readlink_message "File name too long")])
        else
          (Returns (dirname target (String.length target)),
           [EvPlatform "readlink"])
    | Err e =>
        (Exits, [EvPlatform "readlink"; EvStderr (readlink_message e)])
    end.
Proof.
  unfold proc_self_dirname_linux, readlink, readlink_message.
  run_call.
  destruct (proc_self_exe w) as [target|e]; [|reflexivity].
  destruct (Nat.leb_spec (PATH_MAX b) (String.length target)) as [H|H];
    [reflexivity|].
  rewrite substring_0_ge by lia. reflexivity.
Qed.

Lemma proc_self_dirname_win32_eq (b : Build) (w : World) :
  GetModuleFileName_ret w <> 0%N ->
  GetShortPathName_ret w <> 0%N ->
  proc_self_dirname_win32 b w
  = (match units_strlen (firstn (S (MAX_PATH b)) (shortpath_units w)) with
     | None => Undefined
     | Some i =>
         match narrow_units
                 (fst (trim_shortpath
                         (firstn (S (MAX_PATH b)) (shortpath_units w)) i)) with
         | None => Undefined
         | Some path => Returns path
         end
     end,
     [EvPlatform "GetModuleFileName"; EvPlatform "GetShortPathName"]).
Proof.
  intros Hm Hs. unfold proc_self_dirname_win32.
  apply N.eqb_neq in Hm. apply N.eqb_neq in Hs.
  rewrite bind_emit, Hm, bind_emit, Hs. cbv zeta.
  destruct (units_strlen _); [|reflexivity].
  destruct (narrow_units _); reflexivity.
Qed.

(** C7, as stated, fails.  On OpenBSD the entry [long_entry] of [PATH]
    joined with "tool" needs 1034 characters; [snprintf] fills the 1024
    bytes of [epath] and keeps 1023 of them, the variant does not look at
    its result, and since the cut path exists and is executable the
    directory "/aaa.../bbb.../ccc.../dir4/" is returned, which is not the
    entry. *)
Lemma proc_self_dirname_returns_cut_join :
  PATH_MAX openbsd_build - 1 < String.length (long_entry ++ "/" ++ "tool")
  /\ String.length cut_join = PATH_MAX openbsd_build - 1
  /\ proc_self_dirname openbsd_build
       (openbsd_world (Some long_entry) ["tool"] [cut_join])
     = (Returns long_entry_parent,
        [EvPlatform "sysctl"; EvPlatform "sysctl"; EvGetenv "PATH";
         EvStat cut_join])
  /\ long_entry_parent <> long_entry ++ "/"
  /\ ~ (forall b w d t epath,
          platform b = OpenBSD ->
          proc_self_dirname b w = (Returns d, (t ++ [EvStat epath])%list) ->
          d <> "" ->
          String.length epath < PATH_MAX b - 1).
Proof.
  assert (Hrun : proc_self_dirname openbsd_build
                   (openbsd_world (Some long_entry) ["tool"] [cut_join])
                 = (Returns long_entry_parent,
                    ([EvPlatform "sysctl"; EvPlatform "sysctl";
                      EvGetenv "PATH"] ++ [EvStat cut_join])%list))
    by (vm_compute; reflexivity).
  assert (Hlen : String.length cut_join = PATH_MAX openbsd_build - 1)
    by (vm_compute; reflexivity).
  split; [vm_compute; lia|]. split; [exact Hlen|].
  split; [exact Hrun|]. split.
  - intros E. apply (f_equal String.length) in E. vm_compute in E.
    discriminate E.
  - intros H.
    specialize (H openbsd_build _ _ _ _ eq_refl Hrun).
    rewrite Hlen in H. apply (Nat.lt_irrefl (PATH_MAX openbsd_build - 1)).
    apply H. intros E. apply (f_equal String.length) in E.
    vm_compute in E. discriminate E.
Qed.

(** C7, amended.  The variants with a fixed buffer check the platform
    call for failure only; none compares a length with the size of its
    buffer.  On Linux that is enough: a failed [readlink] is fatal, a link
    target of [PATH_MAX] bytes or more makes [readlink] fail, and a
    shorter one is returned whole, so the directory is that of the full
    target.  On Windows a zero result of [GetModuleFileName] or
    [GetShortPathName] is fatal; after any non-zero results the outcome is
    computed from the contents of [shortpath] alone.  On OpenBSD the
    result of [snprintf] is not looked at: the path that is passed to
    [stat] and then trimmed is the first [PATH_MAX - 1] characters of
    "<entry>/<argv0>", also when that is not all of it. *)
Theorem fixed_buffers_guard_failure_only (b : Build) (w : World) :
  (platform b = Linux ->
   (forall e, proc_self_exe w = Err e ->
      proc_self_dirname b w
      = (Exits, [EvPlatform "readlink"; EvStderr (readlink_message e)]))
   /\ (forall target,
         proc_self_exe w = Ok target ->
         PATH_MAX b <= String.length target ->
         proc_self_dirname b w
         = (Exits, [EvPlatform "readlink";
                    EvStderr (readlink_message "File name too long")]))
   /\ (forall target,
         proc_self_exe w = Ok target ->
         String.length target < PATH_MAX b ->
         proc_self_dirname b w
         = (Returns (dirname target (String.length target)),
            [EvPlatform "readlink"])))
  /\ (platform b = Win32 ->
      (GetModuleFileName_ret w = 0%N \/ GetShortPathName_ret w = 0%N ->
       fst (proc_self_dirname b w) = Exits)
      /\ (GetModuleFileName_ret w <> 0%N ->
          GetShortPathName_ret w <> 0%N ->
          let shortpath := firstn (S (MAX_PATH b)) (shortpath_units w) in
          proc_self_dirname b w
          = (match units_strlen shortpath with
             | None => Undefined
             | Some i =>
                 match narrow_units (fst (trim_shortpath shortpath i)) with
                 | None => Undefined
                 | Some path => Returns path
                 end
             end,
             [EvPlatform "GetModuleFileName"; EvPlatform "GetShortPathName"])))
  /\ (platform b = OpenBSD ->
      forall len argv0 args p dir later,
        kern_proc_argv_len w = Ok len ->
        heap w len = Ok tt ->
        kern_proc_argv w = Ok (argv0 :: args) ->
        Ascii.eqb (char_at 0 (c_str argv0)) slash
        || Ascii.eqb (char_at 0 (c_str argv0)) "."%char = false ->
        env w "PATH" = Some p ->
        heap w (S (String.length (c_str p))) = Ok tt ->
        path_entries (c_str p) = dir :: later ->
        let epath :=
          String.substring 0 (PATH_MAX b - 1) (dir ++ "/" ++ c_str argv0) in
        (exists st_mode, stat_r w epath = Some st_mode
                         /\ N.land st_mode S_IXUSR <> 0%N) ->
        proc_self_dirname b w
        = (Returns (dirname epath (String.length epath)),
           (openbsd_prelude ++ [EvStat epath])%list)).
Proof.
  split; [|split]; intros Hplat.
  - unfold proc_self_dirname. rewrite Hplat.
    rewrite proc_self_dirname_linux_eq. split; [|split].
    + intros e ->. reflexivity.
    + intros target -> Hlong.
      apply Nat.leb_le in Hlong. rewrite Hlong. reflexivity.
    + intros target -> Hfit.
      apply Nat.leb_gt in Hfit. rewrite Hfit. reflexivity.
  - unfold proc_self_dirname. rewrite Hplat. split.
    + intros [H|H]; unfold proc_self_dirname_win32; rewrite bind_emit.
      * rewrite H. reflexivity.
      * destruct (N.eqb (GetModuleFileName_ret w) 0); [reflexivity|].
        rewrite bind_emit, H. reflexivity.
    + intros Hm Hs. cbv zeta. apply proc_self_dirname_win32_eq; assumption.
  - intros len argv0 args p dir later Hl Hm Ha Hc Hp Hs He epath
      (st_mode & Hst & Hx).
    unfold proc_self_dirname. rewrite Hplat.
    rewrite (@proc_self_dirname_openbsd_search b w len argv0 args p
               Hl Hm Ha Hc Hp Hs).
    unfold openbsd_found. rewrite He.
    assert (Hhit : executable_at b w (c_str argv0) dir = true).
    { unfold executable_at, snprintf_join. fold epath. rewrite Hst.
      apply N.eqb_neq in Hx. rewrite Hx. reflexivity. }
    cbn [first_executable].
    rewrite stat_executable_eq, Hhit. reflexivity.
Qed.

Lemma fixed_buffers_guard_failure_only_witness :
  proc_self_dirname usr_build (desk_world [])
  = (Returns "/opt/ice/bin/", [EvPlatform "readlink"])
  /\ proc_self_dirname usr_build (with_exe (Ok deep_target) bare_world)
     = (Exits, [EvPlatform "readlink";
                EvStderr (readlink_message "File name too long")])
  /\ fst (proc_self_dirname (build Win32 "/usr/local" "icebox") bare_world)
     = Exits
  /\ proc_self_dirname openbsd_build
       (openbsd_world (Some long_entry) ["tool"] [cut_join])
     = (Returns long_entry_parent,
        [EvPlatform "sysctl"; EvPlatform "sysctl"; EvGetenv "PATH";
         EvStat cut_join]).
Proof.
  split; [|split; [|split]].
  - exact (proj2 (proj2 (proj1 (fixed_buffers_guard_failure_only usr_build
             (desk_world [])) eq_refl)) "/opt/ice/bin/icetime" eq_refl
             ltac:(vm_compute; lia)).
  - exact (proj1 (proj2 (proj1 (fixed_buffers_guard_failure_only usr_build
             (with_exe (Ok deep_target) bare_world)) eq_refl))
             deep_target eq_refl ltac:(vm_compute; lia)).
  - exact (proj1 (proj1 (proj2 (fixed_buffers_guard_failure_only
             (build Win32 "/usr/local" "icebox") bare_world)) eq_refl)
             (or_introl eq_refl)).
  - assert (E : String.substring 0 (PATH_MAX openbsd_build - 1)
                  (long_entry ++ "/" ++ c_str "tool") = cut_join)
      by (vm_compute; reflexivity).
    assert (D : dirname cut_join (String.length cut_join) = long_entry_parent)
      by (vm_compute; reflexivity).
    rewrite <- D, <- E.
    refine (proj2 (proj2 (fixed_buffers_guard_failure_only openbsd_build
              (openbsd_world (Some long_entry) ["tool"] [cut_join])))
              eq_refl 16 "tool" [] long_entry long_entry [] eq_refl eq_refl
              eq_refl eq_refl eq_refl eq_refl _ _).
    + vm_compute; reflexivity.
    + exists 33261%N. split; [|discriminate].
      rewrite E. vm_compute; reflexivity.
Defined.

(** ** The null checks on environment variables *)

(** C10.  On OpenBSD with a bare [argv[0]], the copy of [PATH] is handed
    to [strtok_r] before it is compared with the null pointer.  When
    [PATH] is unset, [strdup] reads the null pointer; when [strdup] fails,
    [strtok_r] is called with a null string and an uninitialised save
    pointer.  Both are undefined behaviour and both happen before the
    check, so the message "fatal error: strdup failed" is never printed.
    When [PATH] is set and [strdup] succeeds the variant returns. *)
Theorem openbsd_strdup_check_comes_late (b : Build) (w : World) :
  platform b = OpenBSD ->
  (forall e,
     ~ In (EvStderr ("fatal error: strdup failed: " ++ e ++ nl))
          (snd (proc_self_dirname b w)))
  /\ (forall len argv0 args,
        kern_proc_argv_len w = Ok len ->
        heap w len = Ok tt ->
        kern_proc_argv w = Ok (argv0 :: args) ->
        Ascii.eqb (char_at 0 (c_str argv0)) slash
        || Ascii.eqb (char_at 0 (c_str argv0)) "."%char = false ->
        (env w "PATH" = None ->
         proc_self_dirname b w = (Undefined, openbsd_prelude))
        /\ (forall p e,
              env w "PATH" = Some p ->
              heap w (S (String.length (c_str p))) = Err e ->
              proc_self_dirname b w = (Undefined, openbsd_prelude))
        /\ (forall p,
              env w "PATH" = Some p ->
              heap w (S (String.length (c_str p))) = Ok tt ->
              exists d t, proc_self_dirname b w = (Returns d, t))).
Proof.
  intros Hplat. unfold proc_self_dirname. rewrite Hplat. split.
  - intros e Hin.
    destruct (proc_self_dirname_openbsd_cases b w) as [He _].
    rewrite forallb_forall in He. specialize (He _ Hin).
    discriminate He.
  - intros len argv0 args Hl Hm Ha Hc. split; [|split].
    + intros Hp.
      unfold proc_self_dirname_openbsd, sysctl, getenv, strdup. rewrite Hl.
      run_call; rewrite Hm, Ha.
      run_call; rewrite Hc, Hp.
      reflexivity.
    + intros p e Hp Hs.
      unfold proc_self_dirname_openbsd, sysctl, getenv, strdup. rewrite Hl.
      run_call; rewrite Hm, Ha.
      run_call; rewrite Hc, Hp.
      rewrite !bind_assoc, bind_emit, !bind_ret, Hs, !bind_ret.
      reflexivity.
    + intros p Hp Hs.
      rewrite (@proc_self_dirname_openbsd_search b w len argv0 args p
                 Hl Hm Ha Hc Hp Hs).
      destruct (openbsd_found_events b w argv0 p) as (_ & d & Hd & _).
      rewrite Hd. eexists. eexists. reflexivity.
Qed.

Lemma openbsd_strdup_check_comes_late_witness :
  proc_self_dirname openbsd_build (openbsd_world None ["tool"] ["/b/tool"])
  = (Undefined, [EvPlatform "sysctl"; EvPlatform "sysctl"; EvGetenv "PATH"]).
Proof.
  exact (proj1 (proj2 (@openbsd_strdup_check_comes_late openbsd_build
           (openbsd_world None ["tool"] ["/b/tool"]) eq_refl)
           16 "tool" [] eq_refl eq_refl eq_refl eq_refl) eq_refl).
Defined.

Lemma homepath_env_posix (b : Build) (w : World) :
  platform b <> Win32 ->
  homepath_env b w
  = match env w "HOME" with
    | Some h => (Returns (c_str h), [EvGetenv "HOME"])
    | None => (Undefined, [EvGetenv "HOME"])
    end.
Proof.
  intros Hplat. unfold homepath_env, getenv, append_chars.
  destruct (platform b); try contradiction;
    run_call;
    destruct (env w "HOME"); reflexivity.
Qed.

(** On Windows every variable is read after it was found set. *)
Lemma homepath_env_win32 (b : Build) (w : World) :
  platform b = Win32 ->
  exists home t,
    homepath_env b w = (Returns home, t)
    /\ forallb is_getenv t = true.
Proof.
  intros Hplat. unfold homepath_env, getenv, append_chars. rewrite Hplat.
  run_call.
  destruct (env w "USERPROFILE") as [up|] eqn:Hup.
  - run_call.
    eexists. eexists. split; reflexivity.
  - run_call.
    destruct (env w "HOMEDRIVE") as [hd|] eqn:Hhd.
    + run_call.
      destruct (env w "HOMEPATH") as [hp|] eqn:Hhp.
      * rewrite !bind_assoc, bind_emit, !bind_ret.
        rewrite !bind_assoc, bind_emit, bind_ret.
        eexists. eexists. split; reflexivity.
      * eexists. eexists. split; reflexivity.
    + eexists. eexists. split; reflexivity.
Qed.

(** C9.  In the POSIX branch of the home step the result of
    [getenv("HOME")] is appended unchecked: with a "~/" prefix and [HOME]
    unset, [find_chipdb] reads the null pointer right after the call; with
    [HOME] set the home directory is its value.  In the Windows branch no
    variable is appended unless it was found set, so the home directory is
    always produced, whatever the environment. *)
Theorem home_step_needs_HOME (b : Build) (w : World) (dev : string) :
  (platform b <> Win32 ->
   PREFIX_in_home b = true ->
   (env w "HOME" = None ->
    find_chipdb b w dev = (Undefined, [EvGetenv "HOME"]))
   /\ (forall h, env w "HOME" = Some h ->
         homepath_env b w = (Returns (c_str h), [EvGetenv "HOME"])))
  /\ (platform b = Win32 ->
      exists home t, homepath_env b w = (Returns home, t)).
Proof.
  split.
  - intros Hplat Hp. split.
    + intros Hh. apply find_chipdb_home_undefined; [exact Hp|].
      rewrite homepath_env_posix by exact Hplat. rewrite Hh. reflexivity.
    + intros h Hh.
      rewrite homepath_env_posix by exact Hplat. rewrite Hh. reflexivity.
  - intros Hplat.
    destruct (homepath_env_win32 b w Hplat) as (home & t & E & _).
    exists home, t. exact E.
Qed.

Lemma home_step_needs_HOME_witness :
  find_chipdb home_build bare_world "hx8k" = (Undefined, [EvGetenv "HOME"])
  /\ homepath_env home_build (desk_world [])
     = (Returns "/home/u", [EvGetenv "HOME"])
  /\ exists home t,
       homepath_env (build Win32 "~/ice" "icebox") bare_world
       = (Returns home, t).
Proof.
  split; [|split].
  - exact (proj1 (proj1 (home_step_needs_HOME home_build bare_world "hx8k")
             ltac:(discriminate) eq_refl) eq_refl).
  - exact (proj2 (proj1 (home_step_needs_HOME home_build (desk_world [])
             "hx8k") ltac:(discriminate) eq_refl) "/home/u" eq_refl).
  - exact (proj2 (home_step_needs_HOME (build Win32 "~/ice" "icebox")
             bare_world "hx8k") eq_refl).
Defined.

(** ** The home step is skipped without the marker *)

Lemma In_probe_events (w : World) (dev path : string) (e : event) :
  In e (probe_events w dev path) ->
  e = EvStderr (diagnostic dev (c_str path)) \/ e = EvFopen (c_str path).
Proof.
  unfold probe_events. destruct (verbose w); simpl; intuition auto.
Qed.

Lemma resolver_event_getenv (t : list event) (name : string) :
  forallb resolver_event t = true -> In (EvGetenv name) t -> name = "PATH".
Proof.
  intros Ht Hin. rewrite forallb_forall in Ht. specialize (Ht _ Hin).
  simpl in Ht. apply String.eqb_eq in Ht. exact Ht.
Qed.

Lemma resolver_event_no_probe (t : list event) (path : string) :
  forallb resolver_event t = true -> ~ In (EvFopen path) t.
Proof.
  intros Ht Hin. rewrite forallb_forall in Ht. specialize (Ht _ Hin).
  discriminate Ht.
Qed.

(** What the search from the fixed prefix on reads and probes. *)
Lemma from_prefix_events (b : Build) (w : World) (dev : string) :
  (forall name, In (EvGetenv name) (snd (from_prefix b w dev)) ->
     name = "PATH")
  /\ (forall path, In (EvFopen path) (snd (from_prefix b w dev)) ->
        path = c_str (prefixpath_of b dev)
        \/ exists dir,
             fst (proc_self_dirname b w) = Returns dir
             /\ path = c_str (relbinarypath_of b dir dev)).
Proof.
  destruct (proc_self_dirname_shape b w) as [Hev _].
  unfold from_prefix.
  destruct (openable w (prefixpath_of b dev)).
  - cbn [snd]. split.
    + intros name Hin. apply In_probe_events in Hin.
      destruct Hin; discriminate.
    + intros path Hin. apply In_probe_events in Hin.
      destruct Hin as [E|E]; [discriminate | inversion E; auto].
  - destruct (proc_self_dirname b w) as [[dir| | |] t]; cbn [fst snd] in *;
      split; intros x Hin; rewrite ?in_app_iff in Hin;
      repeat match goal with
             | H : _ \/ _ |- _ => destruct H
             end;
      match goal with
      | H : In _ (probe_events _ _ _) |- _ =>
          apply In_probe_events in H; destruct H as [E|E];
          try discriminate E; inversion E; subst; clear E
      | H : In (EvGetenv _) _ |- _ =>
          eapply resolver_event_getenv; eassumption
      | H : In (EvFopen _) _ |- _ =>
          exfalso; eapply resolver_event_no_probe; eassumption
      end;
      try (left; reflexivity);
      right; exists dir; split; reflexivity.
Qed.

(** C3.  When [PREFIX] does not begin with "~/", [find_chipdb] is the
    search from the fixed prefix on, whatever the resource, the
    environment and the files.  No home variable is read (the only
    variable that may be read is [PATH], by the resolver), so no home
    candidate is built, and the only paths probed are the fixed-prefix
    candidate and the candidate relative to the executable. *)
Theorem find_chipdb_without_marker (b : Build) (w : World) (dev : string) :
  String.prefix "~/" (PREFIX b) = false ->
  find_chipdb b w dev = from_prefix b w dev
  /\ (forall name, In (EvGetenv name) (snd (find_chipdb b w dev)) ->
        name = "PATH")
  /\ (forall path, In (EvFopen path) (snd (find_chipdb b w dev)) ->
        path = c_str (prefixpath_of b dev)
        \/ exists dir,
             fst (proc_self_dirname b w) = Returns dir
             /\ path = c_str (relbinarypath_of b dir dev)).
Proof.
  intros Hp. rewrite <- PREFIX_in_home_prefix in Hp.
  rewrite (find_chipdb_skips_home b w dev Hp).
  split; [reflexivity|]. apply from_prefix_events.
Qed.

Lemma find_chipdb_without_marker_witness :
  homepath_of usr_build "/home/u" "hx8k"
  = "/home/uusr/local/icebox/chipdb-hx8k.txt"
  /\ find_chipdb usr_build
       (desk_world ["/home/uusr/local/icebox/chipdb-hx8k.txt"]) "hx8k"
     = (Returns "",
        [EvFopen "/usr/local/share/icebox/chipdb-hx8k.txt";
         EvPlatform "readlink";
         EvFopen "/opt/ice/bin/../share/icebox/chipdb-hx8k.txt"]).
Proof.
  split; [reflexivity|].
  exact (proj1 (find_chipdb_without_marker usr_build
           (desk_world ["/home/uusr/local/icebox/chipdb-hx8k.txt"]) "hx8k"
           eq_refl)).
Defined.

(** ** The verbose flag *)

Lemma with_diagnostics_app (dev : string) (t1 t2 : list event) :
  with_diagnostics dev (t1 ++ t2)
  = (with_diagnostics dev t1 ++ with_diagnostics dev t2)%list.
Proof.
  induction t1 as [|e t1 IH]; [reflexivity|].
  destruct e; simpl; rewrite IH; reflexivity.
Qed.

Lemma with_diagnostics_no_probe (dev : string) (t : list event) :
  forallb (fun e => negb (is_probe e)) t = true ->
  with_diagnostics dev t = t.
Proof.
  induction t as [|e t IH]; [reflexivity|]. simpl.
  intros H. apply andb_true_iff in H. destruct H as [He Ht].
  destruct e; simpl in *; try discriminate He; rewrite IH by exact Ht;
    reflexivity.
Qed.

Lemma forallb_impl {A} (f g : A -> bool) (l : list A) :
  (forall a, f a = true -> g a = true) ->
  forallb f l = true -> forallb g l = true.
Proof.
  intros Hfg. induction l as [|a l IH]; [reflexivity|]. simpl.
  intros H. apply andb_true_iff in H. destruct H as [Ha Hl].
  rewrite (Hfg a Ha), (IH Hl). reflexivity.
Qed.

Lemma with_diagnostics_resolver (dev : string) (t : list event) :
  forallb resolver_event t = true -> with_diagnostics dev t = t.
Proof.
  intros H. apply with_diagnostics_no_probe.
  revert H. apply forallb_impl. intros [ | | | | ]; simpl; auto.
Qed.

Lemma with_diagnostics_getenv (dev : string) (t : list event) :
  forallb is_getenv t = true -> with_diagnostics dev t = t.
Proof.
  intros H. apply with_diagnostics_no_probe.
  revert H. apply forallb_impl. intros [ | | | | ]; simpl; auto.
Qed.

Lemma homepath_env_events (b : Build) (w : World) :
  forallb is_getenv (snd (homepath_env b w)) = true.
Proof.
  destruct (platform b) eqn:Hplat;
    try (rewrite homepath_env_posix by (rewrite Hplat; discriminate);
         destruct (env w "HOME"); reflexivity).
  destruct (homepath_env_win32 b w Hplat) as (home & t & E & Ht).
  rewrite E. exact Ht.
Qed.

Lemma proc_self_dirname_with_verbose (b : Build) (w : World) (v : bool) :
  proc_self_dirname b (with_verbose v w) = proc_self_dirname b w.
Proof. reflexivity. Qed.

Lemma homepath_env_with_verbose (b : Build) (w : World) (v : bool) :
  homepath_env b (with_verbose v w) = homepath_env b w.
Proof. reflexivity. Qed.

Lemma from_prefix_verbose (b : Build) (w : World) (dev : string) :
  fst (from_prefix b (with_verbose true w) dev)
  = fst (from_prefix b (with_verbose false w) dev)
  /\ snd (from_prefix b (with_verbose true w) dev)
     = with_diagnostics dev (snd (from_prefix b (with_verbose false w) dev)).
Proof.
  unfold from_prefix. rewrite !proc_self_dirname_with_verbose.
  change (openable (with_verbose true w)) with (openable w).
  change (openable (with_verbose false w)) with (openable w).
  destruct (proc_self_dirname_shape b w) as [Hev _].
  destruct (openable w (prefixpath_of b dev)); [split; reflexivity|].
  destruct (proc_self_dirname b w) as [[dir| | |] t]; cbn [fst snd] in *;
    (split; [reflexivity|]);
    rewrite !with_diagnostics_app, (with_diagnostics_resolver dev t Hev);
    reflexivity.
Qed.

(** C8.  Setting [verbose] changes neither the outcome of [find_chipdb]
    nor what it does: the trace with the flag set is the trace with the
    flag clear in which every probe is preceded by the line
    "Looking for chipdb '<device>' at <path>" for the probed path. *)
Theorem verbose_is_observational (b : Build) (w : World) (dev : string) :
  with_verbose (verbose w) w = w
  /\ fst (find_chipdb b (with_verbose true w) dev)
     = fst (find_chipdb b (with_verbose false w) dev)
  /\ snd (find_chipdb b (with_verbose true w) dev)
     = with_diagnostics dev (snd (find_chipdb b (with_verbose false w) dev)).
Proof.
  split; [destruct w; reflexivity|].
  destruct (from_prefix_verbose b w dev) as [Ho Ht].
  destruct (PREFIX_in_home b) eqn:Hp.
  - pose proof (homepath_env_events b w) as Hg.
    destruct (homepath_env b w) as [[home| | |] t0] eqn:Hh.
    + rewrite !(@find_chipdb_through_home b _ dev home t0 Hp)
        by (rewrite homepath_env_with_verbose; exact Hh).
      change (openable (with_verbose true w)) with (openable w).
      change (openable (with_verbose false w)) with (openable w).
      cbn [snd] in Hg.
      destruct (openable w (homepath_of b home dev)); cbn [fst snd].
      * split; [reflexivity|].
        rewrite with_diagnostics_app, (with_diagnostics_getenv dev t0 Hg).
        reflexivity.
      * split; [exact Ho|].
        rewrite Ht, !with_diagnostics_app,
          (with_diagnostics_getenv dev t0 Hg).
        reflexivity.
    + unfold find_chipdb. rewrite Hp, !homepath_env_with_verbose, Hh.
      cbn [snd] in Hg. cbn [bind fst snd].
      rewrite (with_diagnostics_getenv dev t0 Hg). split; reflexivity.
    + unfold find_chipdb. rewrite Hp, !homepath_env_with_verbose, Hh.
      cbn [snd] in Hg. cbn [bind fst snd].
      rewrite (with_diagnostics_getenv dev t0 Hg). split; reflexivity.
    + unfold find_chipdb. rewrite Hp, !homepath_env_with_verbose, Hh.
      cbn [snd] in Hg. cbn [bind fst snd].
      rewrite (with_diagnostics_getenv dev t0 Hg). split; reflexivity.
  - rewrite !find_chipdb_skips_home by exact Hp. split; assumption.
Qed.

(** ** When nothing opens *)

Lemma proc_self_dirname_with_files (b : Build) (w : World)
    (fs : string -> fopen_result) :
  proc_self_dirname b (with_files fs w) = proc_self_dirname b w.
Proof. reflexivity. Qed.

Lemma homepath_env_with_files (b : Build) (w : World)
    (fs : string -> fopen_result) :
  homepath_env b (with_files fs w) = homepath_env b w.
Proof. reflexivity. Qed.

Lemma openable_with_files (w : World) (fs : string -> fopen_result)
    (path : string) :
  (forall p, opens (fs p) = opens (fopen_r w p)) ->
  openable (with_files fs w) path = openable w path.
Proof. intros H. unfold openable. simpl. apply H. Qed.

Lemma from_prefix_with_files (b : Build) (w : World)
    (fs : string -> fopen_result) (dev : string) :
  (forall p, opens (fs p) = opens (fopen_r w p)) ->
  from_prefix b (with_files fs w) dev = from_prefix b w dev.
Proof.
  intros H. unfold from_prefix.
  rewrite proc_self_dirname_with_files, (openable_with_files w fs _ H).
  destruct (proc_self_dirname b w) as [[dir| | |] t];
    rewrite ?(openable_with_files w fs _ H); reflexivity.
Qed.

Lemma find_chipdb_exits_run :
  find_chipdb usr_build bare_world "hx8k"
  = (Exits,
     [EvFopen "/usr/local/share/icebox/chipdb-hx8k.txt";
      EvPlatform "readlink";
      EvStderr ("fatal error: readlink(" ++ dquote ++ "/proc/self/exe"
                ++ dquote ++ ") failed: No such file or directory" ++ nl)]).
Proof. reflexivity. Qed.

(** C4, as stated, fails.  On Linux with no file that can be opened and
    no readable /proc/self/exe, the fixed-prefix probe fails, the resolver
    prints its fatal message and the process exits: [find_chipdb] does not
    return the empty path. *)
Lemma find_chipdb_exits_without_candidates :
  (forall p, openable bare_world p = false)
  /\ fst (find_chipdb usr_build bare_world "hx8k") = Exits
  /\ ~ (forall b w dev,
          (forall p, openable w p = false) ->
          fst (find_chipdb b w dev) = Returns "").
Proof.
  split; [reflexivity|]. split; [rewrite find_chipdb_exits_run; reflexivity|].
  intros H.
  specialize (H usr_build bare_world "hx8k" (fun _ => eq_refl)).
  rewrite find_chipdb_exits_run in H. discriminate H.
Qed.

(** C4, amended.  When the home step is skipped or misses, the
    fixed-prefix probe fails, the resolver returns a directory and the
    probe of the third candidate fails too, [find_chipdb] returns the empty
    path.  When the resolver exits instead, so does [find_chipdb], before
    any third probe.  The reason a probe failed is not kept: two worlds
    whose [fopen] calls fail at the same paths, with whatever [errno],
    give the same outcome and the same trace. *)
Theorem find_chipdb_not_found (b : Build) (w : World) (dev : string) :
  (forall t0 dir t1,
     home_step_passed b w dev t0 ->
     openable w (prefixpath_of b dev) = false ->
     proc_self_dirname b w = (Returns dir, t1) ->
     openable w (relbinarypath_of b dir dev) = false ->
     find_chipdb b w dev
     = (Returns "",
        (t0 ++ probe_events w dev (prefixpath_of b dev) ++ t1
         ++ probe_events w dev (relbinarypath_of b dir dev))%list))
  /\ (forall t0 t1,
        home_step_passed b w dev t0 ->
        openable w (prefixpath_of b dev) = false ->
        proc_self_dirname b w = (Exits, t1) ->
        find_chipdb b w dev
        = (Exits, (t0 ++ probe_events w dev (prefixpath_of b dev) ++ t1)%list))
  /\ (forall fs,
        (forall p, opens (fs p) = opens (fopen_r w p)) ->
        find_chipdb b (with_files fs w) dev = find_chipdb b w dev).
Proof.
  split; [|split].
  - intros t0 dir t1 [[Hp ->]|[Hp (home & t & Hh & Ho & ->)]] Hf Hd Hr.
    + rewrite find_chipdb_skips_home by assumption.
      unfold from_prefix. rewrite Hf, Hd, Hr. reflexivity.
    + rewrite (@find_chipdb_through_home b w dev home t Hp Hh), Ho.
      unfold from_prefix. rewrite Hf, Hd, Hr. reflexivity.
  - intros t0 t1 [[Hp ->]|[Hp (home & t & Hh & Ho & ->)]] Hf Hd.
    + rewrite find_chipdb_skips_home by assumption.
      unfold from_prefix. rewrite Hf, Hd. reflexivity.
    + rewrite (@find_chipdb_through_home b w dev home t Hp Hh), Ho.
      unfold from_prefix. rewrite Hf, Hd. reflexivity.
  - intros fs Hfs.
    destruct (PREFIX_in_home b) eqn:Hp.
    + destruct (homepath_env b w) as [[home| | |] t0] eqn:Hh.
      * rewrite (@find_chipdb_through_home b w dev home t0 Hp Hh).
        rewrite (@find_chipdb_through_home b (with_files fs w) dev home t0 Hp)
          by (rewrite homepath_env_with_files; exact Hh).
        rewrite (openable_with_files w fs _ Hfs).
        rewrite (from_prefix_with_files b w fs dev Hfs). reflexivity.
      * unfold find_chipdb.
        rewrite Hp, homepath_env_with_files, Hh. reflexivity.
      * unfold find_chipdb.
        rewrite Hp, homepath_env_with_files, Hh. reflexivity.
      * unfold find_chipdb.
        rewrite Hp, homepath_env_with_files, Hh. reflexivity.
    + rewrite !find_chipdb_skips_home by exact Hp.
      apply from_prefix_with_files. exact Hfs.
Qed.

Lemma find_chipdb_not_found_witness :
  find_chipdb usr_build (desk_world []) "hx8k"
  = (Returns "",
     [EvFopen "/usr/local/share/icebox/chipdb-hx8k.txt";
      EvPlatform "readlink";
      EvFopen "/opt/ice/bin/../share/icebox/chipdb-hx8k.txt"])
  /\ find_chipdb usr_build (with_files (fun _ => NoStream 13) (desk_world []))
       "hx8k"
     = find_chipdb usr_build (desk_world []) "hx8k".
Proof.
  split.
  - exact (proj1 (find_chipdb_not_found usr_build (desk_world []) "hx8k")
             [] "/opt/ice/bin/" [EvPlatform "readlink"]
             (or_introl (conj eq_refl eq_refl)) eq_refl eq_refl eq_refl).
  - exact (proj2 (proj2 (find_chipdb_not_found usr_build (desk_world [])
             "hx8k")) (fun _ => NoStream 13) (fun _ => eq_refl)).
Defined.

(** * Further properties of the code *)

(** ** The trimming loop *)

Lemma substring_0_all (s : string) :
  String.substring 0 (String.length s) s = s.
Proof. induction s as [|c s IH]; simpl; [|rewrite IH]; reflexivity. Qed.

Lemma substring_0_S (n : nat) (s : string) :
  n < String.length s ->
  String.substring 0 (S n) s
  = String.substring 0 n s ++ String (char_at n s) "".
Proof.
  revert n. induction s as [|c s IH]; intros n Hn; simpl in Hn; [lia|].
  destruct n as [|n].
  - simpl. destruct s; reflexivity.
  - change (String.substring 0 (S (S n)) (String c s))
      with (String c (String.substring 0 (S n) s)).
    rewrite IH by lia. reflexivity.
Qed.

Lemma has_slash_app (s1 s2 : string) :
  has_slash (s1 ++ s2) = has_slash s1 || has_slash s2.
Proof.
  induction s1 as [|c s1 IH]; simpl; [reflexivity|].
  rewrite IH, orb_assoc. reflexivity.
Qed.

Lemma last_char_char_at (d : string) (c : ascii) :
  last_char d = Some c ->
  exists m, String.length d = S m /\ char_at m d = c.
Proof.
  unfold last_char, char_at. destruct (String.length d) as [|m]; [discriminate|].
  intros H. exists m. rewrite H. split; reflexivity.
Qed.

(** X1.  The loop [while (buflen > 0 && path[buflen-1] != '/') buflen--]
    cuts the first [buflen] bytes right after their last '/': what it keeps
    followed by what it drops is the input, what it drops holds no '/',
    what it keeps is empty or ends in '/', and trimming what it kept
    again changes nothing. *)
Theorem dirname_cuts_after_last_slash (path : string) (buflen : nat) :
  buflen <= String.length path ->
  (exists dropped,
     String.substring 0 buflen path = dirname path buflen ++ dropped
     /\ has_slash dropped = false)
  /\ (dirname path buflen = ""
      \/ last_char (dirname path buflen) = Some slash)
  /\ dirname (dirname path buflen) (String.length (dirname path buflen))
     = dirname path buflen.
Proof.
  intros Hb. split; [|split].
  - unfold dirname. induction buflen as [|n IH].
    + exists "". split; [destruct path; reflexivity | reflexivity].
    + simpl dirname_len.
      destruct (Ascii.eqb_spec (char_at n path) slash) as [E|E].
      * exists "". rewrite append_nil_r. split; reflexivity.
      * destruct (IH ltac:(lia)) as (dropped & Hd & Hs).
        exists (dropped ++ String (char_at n path) "").
        rewrite substring_0_S by lia. rewrite Hd, append_assoc.
        split; [reflexivity|].
        rewrite has_slash_app, Hs. simpl.
        destruct (Ascii.eqb_spec (char_at n path) slash);
          [contradiction | reflexivity].
  - apply dirname_shape. exact Hb.
  - destruct (@dirname_shape path buflen Hb) as [E|E].
    + rewrite E. reflexivity.
    + destruct (@last_char_char_at _ _ E) as (m & Hm & Hc).
      unfold dirname at 1. rewrite Hm. simpl dirname_len.
      rewrite Hc. unfold slash at 1. rewrite Ascii.eqb_refl.
      rewrite <- Hm. apply substring_0_all.
Qed.

Lemma dirname_cuts_after_last_slash_witness :
  (exists dropped,
     String.substring 0 11 "/usr/bin/ls garbage"
     = dirname "/usr/bin/ls garbage" 11 ++ dropped
     /\ has_slash dropped = false)
  /\ (dirname "/usr/bin/ls garbage" 11 = ""
      \/ last_char (dirname "/usr/bin/ls garbage" 11) = Some slash)
  /\ dirname (dirname "/usr/bin/ls garbage" 11)
       (String.length (dirname "/usr/bin/ls garbage" 11))
     = dirname "/usr/bin/ls garbage" 11.
Proof.
  apply (@dirname_cuts_after_last_slash "/usr/bin/ls garbage" 11).
  simpl. lia.
Defined.

Example dirname_run : dirname "/usr/bin/ls garbage" 11 = "/usr/bin/".
Proof. reflexivity. Qed.

Lemma char_at_app_l (s1 s2 : string) (i : nat) :
  i < String.length s1 -> char_at i (s1 ++ s2) = char_at i s1.
Proof.
  unfold char_at. revert i. induction s1 as [|c s1 IH]; intros i Hi;
    simpl in Hi; [lia|].
  destruct i as [|i]; simpl; [reflexivity|]. apply IH. lia.
Qed.

Lemma dirname_len_app_l (s1 s2 : string) (n : nat) :
  n <= String.length s1 -> dirname_len (s1 ++ s2) n = dirname_len s1 n.
Proof.
  induction n as [|n IH]; intros Hn; [reflexivity|]. simpl.
  rewrite char_at_app_l by lia. rewrite IH by lia. reflexivity.
Qed.

Lemma substring_0_app_l (s1 s2 : string) (k : nat) :
  k <= String.length s1 ->
  String.substring 0 k (s1 ++ s2) = String.substring 0 k s1.
Proof.
  revert k. induction s1 as [|c s1 IH]; intros k Hk; simpl in Hk.
  - assert (k = 0) by lia. subst k. destruct s2; reflexivity.
  - destruct k as [|k]; [reflexivity|]. simpl. rewrite IH by lia. reflexivity.
Qed.

(** The terminator that the platform wrote after the path is stepped
    over: the directory is that of the path itself. *)
Lemma dirname_terminator (exe : string) :
  dirname (exe ++ String NUL "") (S (String.length exe))
  = dirname exe (String.length exe).
Proof.
  unfold dirname. simpl dirname_len.
  replace (char_at (String.length exe) (exe ++ String NUL ""))
    with NUL
    by (rewrite <- (Nat.add_0_r (String.length exe)) at 1;
        rewrite char_at_app_r; reflexivity).
  change (Ascii.eqb NUL slash) with false. cbv iota.
  rewrite dirname_len_app_l by lia.
  apply substring_0_app_l. apply dirname_len_le.
Qed.

Lemma dirname_absolute (path : string) (n : nat) :
  char_at 0 path = slash -> 0 < n -> n <= String.length path ->
  char_at 0 (dirname path n) = slash
  /\ last_char (dirname path n) = Some slash.
Proof.
  intros Hs Hn Hl.
  assert (Hge := @dirname_len_ge path n 0 Hs Hn).
  assert (Hle := dirname_len_le path n).
  split.
  - unfold dirname. rewrite char_at_substring_0 by lia. exact Hs.
  - destruct (@dirname_shape path n Hl) as [E|E]; [|exact E].
    exfalso. unfold dirname in E.
    apply (f_equal String.length) in E.
    rewrite substring_0_length in E by lia. simpl in E. lia.
Qed.

(** ** The variants one by one *)

(** X2.  On Linux, when the link target is an absolute path shorter than
    [PATH_MAX], the resolver returns after its single [readlink] call the
    directory of the whole target, and that directory begins and ends
    with '/'. *)
Theorem linux_absolute_directory (b : Build) (w : World) (target : string) :
  platform b = Linux ->
  proc_self_exe w = Ok target ->
  char_at 0 target = slash ->
  String.length target < PATH_MAX b ->
  proc_self_dirname b w
  = (Returns (dirname target (String.length target)),
     [EvPlatform "readlink"])
  /\ char_at 0 (dirname target (String.length target)) = slash
  /\ last_char (dirname target (String.length target)) = Some slash.
Proof.
  intros Hplat Ht Hs Hfit.
  unfold proc_self_dirname. rewrite Hplat, proc_self_dirname_linux_eq, Ht.
  apply Nat.leb_gt in Hfit. rewrite Hfit. split; [reflexivity|].
  assert (Hpos : 0 < String.length target).
  { destruct target; [discriminate Hs | simpl; lia]. }
  apply dirname_absolute; [exact Hs | exact Hpos | apply le_n].
Qed.

Lemma linux_absolute_directory_witness :
  proc_self_dirname usr_build (desk_world [])
  = (Returns (dirname "/opt/ice/bin/icetime"
                (String.length "/opt/ice/bin/icetime")),
     [EvPlatform "readlink"])
  /\ char_at 0 (dirname "/opt/ice/bin/icetime"
                  (String.length "/opt/ice/bin/icetime")) = slash
  /\ last_char (dirname "/opt/ice/bin/icetime"
                  (String.length "/opt/ice/bin/icetime")) = Some slash.
Proof.
  apply (@linux_absolute_directory usr_build (desk_world [])
           "/opt/ice/bin/icetime").
  - reflexivity.
  - reflexivity.
  - reflexivity.
  - vm_compute. lia.
Defined.

(** X3.  On FreeBSD each of the three calls is checked: a failed size
    query, a failed [malloc] and a failed second query each print their
    own message and exit.  When all succeed and the kernel wrote the path
    with its terminator, the result is the directory of the path. *)
Theorem freebsd_checks_every_call (b : Build) (w : World) :
  platform b = FreeBSD ->
  (forall e, kern_proc_pathname_len w = Err e ->
     proc_self_dirname b w
     = (Exits, [EvPlatform "sysctl";
                EvStderr ("fatal error: sysctl failed: " ++ e ++ nl)]))
  /\ (forall buflen e,
        kern_proc_pathname_len w = Ok buflen ->
        heap w buflen = Err e ->
        proc_self_dirname b w
        = (Exits, [EvPlatform "sysctl";
                   EvStderr ("fatal error: malloc failed: " ++ e ++ nl)]))
  /\ (forall buflen e,
        kern_proc_pathname_len w = Ok buflen ->
        heap w buflen = Ok tt ->
        kern_proc_pathname w = Err e ->
        proc_self_dirname b w
        = (Exits, [EvPlatform "sysctl"; EvPlatform "sysctl";
                   EvStderr ("fatal error: sysctl failed: " ++ e ++ nl)]))
  /\ (forall buflen exe,
        kern_proc_pathname_len w = Ok buflen ->
        heap w buflen = Ok tt ->
        kern_proc_pathname w = Ok (exe ++ String NUL "") ->
        proc_self_dirname b w
        = (Returns (dirname exe (String.length exe)),
           [EvPlatform "sysctl"; EvPlatform "sysctl"])).
Proof.
  intros Hplat. unfold proc_self_dirname. rewrite Hplat.
  unfold proc_self_dirname_freebsd, sysctl.
  split; [|split; [|split]].
  - intros e ->. reflexivity.
  - intros buflen e -> Hm. run_call. rewrite Hm. reflexivity.
  - intros buflen e -> Hm ->. run_call. rewrite Hm. reflexivity.
  - intros buflen exe -> Hm ->. run_call. rewrite Hm. run_call.
    cbn [fst snd ret]. rewrite append_length. simpl String.length.
    rewrite Nat.add_1_r, dirname_terminator. reflexivity.
Qed.

Lemma freebsd_checks_every_call_witness :
  proc_self_dirname (build FreeBSD "/usr/local" "icebox")
    (freebsd_world "/usr/local/bin/icetime")
  = (Returns "/usr/local/bin/", [EvPlatform "sysctl"; EvPlatform "sysctl"])
  /\ proc_self_dirname (build FreeBSD "/usr/local" "icebox") bare_world
     = (Exits, [EvPlatform "sysctl";
                EvStderr ("fatal error: sysctl failed: "
                          ++ "Operation not permitted" ++ nl)]).
Proof.
  split.
  - exact (proj2 (proj2 (proj2 (@freebsd_checks_every_call
             (build FreeBSD "/usr/local" "icebox")
             (freebsd_world "/usr/local/bin/icetime") eq_refl)))
             23 "/usr/local/bin/icetime" eq_refl eq_refl eq_refl).
  - exact (proj1 (@freebsd_checks_every_call
             (build FreeBSD "/usr/local" "icebox") bare_world eq_refl)
             "Operation not permitted" eq_refl).
Defined.

(** X4.  On macOS the resolver calls [_NSGetExecutablePath] exactly twice:
    once to learn the size and once to fetch the path.  When [realloc]
    gives memory the result is the directory of the path.  The result of
    [realloc] is not checked: when it fails, the second call writes through
    the null pointer. *)
Theorem apple_two_calls (b : Build) (w : World) :
  platform b = Apple ->
  let exe := c_str (ns_executable_path w) in
  (heap w (S (String.length exe)) = Ok tt ->
   proc_self_dirname b w
   = (Returns (dirname exe (String.length exe)),
      [EvPlatform "_NSGetExecutablePath";
       EvPlatform "_NSGetExecutablePath"]))
  /\ (forall e, heap w (S (String.length exe)) = Err e ->
        proc_self_dirname b w
        = (Undefined,
           [EvPlatform "_NSGetExecutablePath";
            EvPlatform "_NSGetExecutablePath"])).
Proof.
  intros Hplat exe. unfold proc_self_dirname. rewrite Hplat.
  rewrite proc_self_dirname_apple_cases. fold exe. split.
  - intros ->. cbv zeta. rewrite append_length. simpl String.length.
    rewrite Nat.add_1_r, dirname_terminator. reflexivity.
  - intros e ->. reflexivity.
Qed.

Lemma apple_two_calls_witness :
  proc_self_dirname (build Apple "/usr/local" "icebox")
    (apple_world "/Applications/ice/bin/icetime" (fun _ => Ok tt))
  = (Returns "/Applications/ice/bin/",
     [EvPlatform "_NSGetExecutablePath"; EvPlatform "_NSGetExecutablePath"])
  /\ proc_self_dirname (build Apple "/usr/local" "icebox")
       (apple_world "/Applications/ice/bin/icetime"
          (fun _ => Err "Cannot allocate memory"))
     = (Undefined,
        [EvPlatform "_NSGetExecutablePath";
         EvPlatform "_NSGetExecutablePath"]).
Proof.
  split.
  - exact (proj1 (@apple_two_calls (build Apple "/usr/local" "icebox")
             (apple_world "/Applications/ice/bin/icetime" (fun _ => Ok tt))
             eq_refl) eq_refl).
  - exact (proj2 (@apple_two_calls (build Apple "/usr/local" "icebox")
             (apple_world "/Applications/ice/bin/icetime"
                (fun _ => Err "Cannot allocate memory"))
             eq_refl) "Cannot allocate memory" eq_refl).
Defined.

(** Nothing the Windows trimming loop stepped over was a separator. *)
Lemma trim_shortpath_last (n : nat) (a : list N) (j : nat) :
  snd (trim_shortpath a n) <= j -> j < n ->
  is_separator_unit (nth j a 0%N) = false.
Proof.
  revert a. induction n as [|m IH]; intros a Hlo Hhi; [lia|].
  simpl in Hlo. fold (is_separator_unit (nth m a 0%N)) in Hlo.
  destruct (is_separator_unit (nth m a 0%N)) eqn:Hs.
  - simpl in Hlo. lia.
  - destruct (Nat.eq_dec j m) as [->|Hne]; [exact Hs|].
    rewrite <- (@nth_store_unit_other j m 0%N a Hne).
    apply IH; [exact Hlo | lia].
Qed.

(** X5.  On Windows, once both calls have returned non-zero and
    [shortpath] holds a terminated string of [n] units, the resolver
    returns the first [k] units narrowed to [char], where unit [k-1] is the
    last '/' or backslash of the string ([k = 0] when there is none): either
    separator ends the directory, and no separator is dropped. *)
Theorem win32_cuts_after_last_separator (b : Build) (w : World) (n : nat) :
  platform b = Win32 ->
  GetModuleFileName_ret w <> 0%N ->
  GetShortPathName_ret w <> 0%N ->
  let shortpath := firstn (S (MAX_PATH b)) (shortpath_units w) in
  units_strlen shortpath = Some n ->
  exists k,
    k <= n
    /\ proc_self_dirname b w
       = (Returns (narrow_string (firstn k shortpath)),
          [EvPlatform "GetModuleFileName"; EvPlatform "GetShortPathName"])
    /\ (k = 0 \/ exists j, k = S j
                  /\ is_separator_unit (nth j shortpath 0%N) = true)
    /\ (forall j, k <= j -> j < n ->
          is_separator_unit (nth j shortpath 0%N) = false).
Proof.
  intros Hplat Hm Hs shortpath Hn.
  unfold proc_self_dirname. rewrite Hplat.
  rewrite proc_self_dirname_win32_eq by assumption.
  fold shortpath. rewrite Hn.
  apply units_strlen_first_zero in Hn.
  destruct (trim_shortpath_narrow Hn) as (k & Ek & Hk & Hnarrow & Hsep).
  exists k. split; [exact Hk|]. split; [rewrite Hnarrow; reflexivity|].
  split; [exact Hsep|].
  intros j Hlo Hhi. apply (@trim_shortpath_last n shortpath j); [|exact Hhi].
  rewrite Ek. exact Hlo.
Qed.

Lemma win32_cuts_after_last_separator_witness :
  exists k,
    k <= 24
    /\ proc_self_dirname (build Win32 "/usr/local" "icebox")
         (win32_world "C:/ICE~1\bin\ICETIME.EXE")
       = (Returns (narrow_string
                     (firstn k (firstn 261
                        (units_of_string "C:/ICE~1\bin\ICETIME.EXE")))),
          [EvPlatform "GetModuleFileName"; EvPlatform "GetShortPathName"])
    /\ (k = 0 \/ exists j, k = S j
                  /\ is_separator_unit
                       (nth j (firstn 261
                          (units_of_string "C:/ICE~1\bin\ICETIME.EXE")) 0%N)
                     = true)
    /\ (forall j, k <= j -> j < 24 ->
          is_separator_unit
            (nth j (firstn 261
               (units_of_string "C:/ICE~1\bin\ICETIME.EXE")) 0%N) = false).
Proof.
  apply (@win32_cuts_after_last_separator
           (build Win32 "/usr/local" "icebox")
           (win32_world "C:/ICE~1\bin\ICETIME.EXE") 24).
  - reflexivity.
  - discriminate.
  - discriminate.
  - reflexivity.
Defined.

Example win32_either_separator_run :
  fst (proc_self_dirname (build Win32 "/usr/local" "icebox")
         (win32_world "C:/ICE~1\bin\ICETIME.EXE"))
  = Returns "C:/ICE~1\bin\".
Proof. reflexivity. Qed.

(** X6.  On OpenBSD, when [argv[0]] begins with '/' or '.', the resolver
    asks [realpath] and nothing else: [PATH] is not read and no [stat] is
    made.  A resolved path gives its directory; a failing [realpath] is not
    fatal and gives the empty string.  An empty argument vector makes the
    resolver read through the null pointer [argv[0]]. *)
Theorem openbsd_realpath_branch (b : Build) (w : World) (len : nat) :
  platform b = OpenBSD ->
  kern_proc_argv_len w = Ok len ->
  heap w len = Ok tt ->
  (forall argv0 args,
     kern_proc_argv w = Ok (argv0 :: args) ->
     Ascii.eqb (char_at 0 (c_str argv0)) slash
     || Ascii.eqb (char_at 0 (c_str argv0)) "."%char = true ->
     proc_self_dirname b w
     = (Returns match realpath_r w (c_str argv0) with
                | Some resolved =>
                    dirname (c_str resolved) (String.length (c_str resolved))
                | None => ""
                end,
        [EvPlatform "sysctl"; EvPlatform "sysctl"; EvPlatform "realpath"]))
  /\ (kern_proc_argv w = Ok [] ->
      proc_self_dirname b w
      = (Undefined, [EvPlatform "sysctl"; EvPlatform "sysctl"])).
Proof.
  intros Hplat Hl Hm. unfold proc_self_dirname. rewrite Hplat.
  unfold proc_self_dirname_openbsd, sysctl. rewrite Hl.
  run_call. rewrite Hm. split.
  - intros argv0 args Ha Hc. rewrite Ha. run_call. rewrite Hc. run_call.
    destruct (realpath_r w (c_str argv0)); reflexivity.
  - intros Ha. rewrite Ha. reflexivity.
Qed.

Lemma openbsd_realpath_branch_witness :
  proc_self_dirname openbsd_build
    (openbsd_realpath_world "./icetime" (Some "/home/u/ice/icetime"))
  = (Returns "/home/u/ice/",
     [EvPlatform "sysctl"; EvPlatform "sysctl"; EvPlatform "realpath"])
  /\ proc_self_dirname openbsd_build
       (openbsd_realpath_world "/gone/icetime" None)
     = (Returns "",
        [EvPlatform "sysctl"; EvPlatform "sysctl"; EvPlatform "realpath"]).
Proof.
  split.
  - exact (proj1 (@openbsd_realpath_branch openbsd_build
             (openbsd_realpath_world "./icetime" (Some "/home/u/ice/icetime"))
             16 eq_refl eq_refl eq_refl) "./icetime" [] eq_refl eq_refl).
  - exact (proj1 (@openbsd_realpath_branch openbsd_build
             (openbsd_realpath_world "/gone/icetime" None)
             16 eq_refl eq_refl eq_refl) "/gone/icetime" [] eq_refl eq_refl).
Defined.

(** ** What the resolver asks and prints *)



Lemma first_executable_stats (b : Build) (w : World) (comm : string)
    (entries : list string) :
  forallb is_stat (snd (first_executable b w comm entries)) = true
  /\ forall p, In (EvStat p) (snd (first_executable b w comm entries)) ->
       exists dir, In dir entries /\ p = snprintf_join b dir comm.
Proof.
  induction entries as [|m entries [IHs IHi]].
  - split; [reflexivity | intros p []].
  - cbn [first_executable]. rewrite stat_executable_eq, bind_returns.
    destruct (executable_at b w comm m); cbn [fst snd ret app].
    + split; [reflexivity|].
      intros p [E|[]]. inversion E. exists m. split; [left|]; reflexivity.
    + split; [exact IHs|].
      intros p [E|Hin].
      * inversion E. exists m. split; [left|]; reflexivity.
      * destruct (IHi p Hin) as (dir & Hd & ->).
        exists dir. split; [right; exact Hd | reflexivity].
Qed.

(** Every run of the OpenBSD resolver has one of the three looks. *)
Lemma proc_self_dirname_openbsd_forms (b : Build) (w : World) :
  exits_after_message (proc_self_dirname_openbsd b w)
  \/ ends_after_queries (proc_self_dirname_openbsd b w)
  \/ exists len argv0 args p,
       kern_proc_argv_len w = Ok len
       /\ kern_proc_argv w = Ok (argv0 :: args)
       /\ env w "PATH" = Some p
       /\ proc_self_dirname_openbsd b w
          = (fst (openbsd_found b w argv0 p),
             (openbsd_prelude ++ snd (openbsd_found b w argv0 p))%list).
Proof.
  destruct (kern_proc_argv_len w) as [len|e1] eqn:Hl.
  2:{ left. exists [EvPlatform "sysctl"], ("fatal error: sysctl failed: " ++ e1 ++ nl).
      unfold proc_self_dirname_openbsd, sysctl. rewrite Hl.
      repeat split. }
  destruct (heap w len) as [[]|e2] eqn:Hm.
  2:{ left. exists [EvPlatform "sysctl"], ("fatal error: malloc failed: " ++ e2 ++ nl).
      unfold proc_self_dirname_openbsd, sysctl. rewrite Hl.
      run_call. rewrite Hm. repeat split. }
  destruct (kern_proc_argv w) as [[|argv0 args]|e3] eqn:Ha.
  { right; left. exists Undefined, [EvPlatform "sysctl"; EvPlatform "sysctl"].
    unfold proc_self_dirname_openbsd, sysctl. rewrite Hl.
    run_call. rewrite Hm, Ha. repeat split. discriminate. }
  2:{ left. exists [EvPlatform "sysctl"; EvPlatform "sysctl"],
        ("fatal error: sysctl failed: " ++ e3 ++ nl).
      unfold proc_self_dirname_openbsd, sysctl. rewrite Hl.
      run_call. rewrite Hm, Ha. repeat split. }
  destruct (Ascii.eqb (char_at 0 (c_str argv0)) slash
            || Ascii.eqb (char_at 0 (c_str argv0)) "."%char) eqn:Hc.
  { right; left.
    unfold proc_self_dirname_openbsd, sysctl. rewrite Hl.
    run_call. rewrite Hm, Ha. run_call. rewrite Hc. run_call.
    destruct (realpath_r w (c_str argv0)); cbn [fst snd ret option_map];
      eexists _, [EvPlatform "sysctl"; EvPlatform "sysctl";
                  EvPlatform "realpath"];
      (split; [reflexivity | split; [discriminate | reflexivity]]). }
  destruct (env w "PATH") as [p|] eqn:Hp.
  2:{ right; left. exists Undefined, openbsd_prelude.
      unfold proc_self_dirname_openbsd, sysctl, getenv, strdup. rewrite Hl.
      run_call. rewrite Hm, Ha. run_call. rewrite Hc, Hp.
      repeat split. discriminate. }
  destruct (heap w (S (String.length (c_str p)))) as [[]|e4] eqn:Hs.
  2:{ right; left. exists Undefined, openbsd_prelude.
      unfold proc_self_dirname_openbsd, sysctl, getenv, strdup. rewrite Hl.
      run_call. rewrite Hm, Ha. run_call. rewrite Hc, Hp.
      rewrite !bind_assoc, bind_emit, !bind_ret, Hs, !bind_ret.
      repeat split. discriminate. }
  right; right. exists len, argv0, args, p.
  split; [reflexivity|]. split; [reflexivity|]. split; [reflexivity|].
  exact (@proc_self_dirname_openbsd_search b w len argv0 args p
           Hl Hm Ha Hc Hp Hs).
Qed.

(** On the other platforms the resolver exits after a message or ends
    after its queries. *)
Lemma proc_self_dirname_other_forms (b : Build) (w : World) :
  platform b <> OpenBSD ->
  exits_after_message (proc_self_dirname b w)
  \/ ends_after_queries (proc_self_dirname b w).
Proof.
  intros Hplat. unfold proc_self_dirname.
  destruct (platform b); try contradiction.
  - (* Linux *)
    rewrite proc_self_dirname_linux_eq.
    destruct (proc_self_exe w) as [target|e].
    + destruct (Nat.leb (PATH_MAX b) (String.length target)).
      * left. eexists [EvPlatform "readlink"], _.
        split; [reflexivity | split; reflexivity].
      * right. eexists _, [EvPlatform "readlink"].
        split; [reflexivity | split; [discriminate | reflexivity]].
    + left. eexists [EvPlatform "readlink"], _.
      split; [reflexivity | split; reflexivity].
  - (* FreeBSD *)
    unfold proc_self_dirname_freebsd, sysctl. run_call.
    destruct (kern_proc_pathname_len w) as [buflen|e].
    2:{ left. eexists [EvPlatform "sysctl"], _.
        split; [reflexivity | split; reflexivity]. }
    destruct (heap w buflen) as [[]|e].
    2:{ left. eexists [EvPlatform "sysctl"], _.
        split; [reflexivity | split; reflexivity]. }
    run_call.
    destruct (kern_proc_pathname w) as [buffer|e].
    + right. eexists _, [EvPlatform "sysctl"; EvPlatform "sysctl"].
      split; [reflexivity | split; [discriminate | reflexivity]].
    + left. eexists [EvPlatform "sysctl"; EvPlatform "sysctl"], _.
      split; [reflexivity | split; reflexivity].
  - (* Apple *)
    rewrite proc_self_dirname_apple_cases. right.
    destruct (heap w _);
      eexists _, [EvPlatform "_NSGetExecutablePath";
                  EvPlatform "_NSGetExecutablePath"];
      (split; [reflexivity | split; [discriminate | reflexivity]]).
  - (* Windows *)
    unfold proc_self_dirname_win32. rewrite bind_emit.
    destruct (N.eqb (GetModuleFileName_ret w) 0).
    { left. eexists [EvPlatform "GetModuleFileName"], _.
      split; [reflexivity | split; reflexivity]. }
    rewrite bind_emit.
    destruct (N.eqb (GetShortPathName_ret w) 0).
    { left. eexists [EvPlatform "GetModuleFileName";
                     EvPlatform "GetShortPathName"], _.
      split; [reflexivity | split; reflexivity]. }
    right. cbv zeta.
    destruct (units_strlen _);
      [destruct (narrow_units _)|];
      eexists _, [EvPlatform "GetModuleFileName";
                  EvPlatform "GetShortPathName"];
      (split; [reflexivity | split; [discriminate | reflexivity]]).
  - (* Emscripten *)
    right. exists (Returns "/"), [].
    split; [reflexivity | split; [discriminate | reflexivity]].
Qed.

Lemma openbsd_found_stats (b : Build) (w : World) (argv0 path_var : string) :
  (exists d, fst (openbsd_found b w argv0 path_var) = Returns d)
  /\ forallb is_stat (snd (openbsd_found b w argv0 path_var)) = true
  /\ forall p, In (EvStat p) (snd (openbsd_found b w argv0 path_var)) ->
       exists dir,
         In dir (path_entries (c_str path_var))
         /\ p = snprintf_join b dir (c_str argv0).
Proof.
  unfold openbsd_found.
  destruct (first_executable_stats b w (c_str argv0)
              (path_entries (c_str path_var))) as [Hs Hi].
  destruct (first_executable_returns b w (c_str argv0)
              (path_entries (c_str path_var))) as [found Hf].
  destruct (first_executable b w (c_str argv0)
              (path_entries (c_str path_var))) as [o t].
  simpl in Hs, Hi, Hf. subst o. rewrite bind_returns.
  destruct found; cbn [fst snd ret]; rewrite app_nil_r;
    (split; [eexists; reflexivity | split; [exact Hs | exact Hi]]).
Qed.

Lemma query_is_silent (t : list event) :
  forallb is_query t = true -> silent t = true.
Proof. apply forallb_impl. intros [ | | | | ]; simpl; auto. Qed.

Lemma stat_is_silent (t : list event) :
  forallb is_stat t = true -> silent t = true.
Proof. apply forallb_impl. intros [ | | | | ]; simpl; auto. Qed.


(** The looks of a run on any platform. *)
Lemma proc_self_dirname_forms (b : Build) (w : World) :
  exits_after_message (proc_self_dirname b w)
  \/ ends_after_queries (proc_self_dirname b w)
  \/ (platform b = OpenBSD
      /\ exists len argv0 args p,
           kern_proc_argv_len w = Ok len
           /\ kern_proc_argv w = Ok (argv0 :: args)
           /\ env w "PATH" = Some p
           /\ proc_self_dirname b w
              = (fst (openbsd_found b w argv0 p),
                 (openbsd_prelude ++ snd (openbsd_found b w argv0 p))%list)).
Proof.
  destruct (platform b) eqn:Hplat;
    try (destruct (@proc_self_dirname_other_forms b w) as [H|H];
         [rewrite Hplat; discriminate | left; exact H | right; left; exact H]).
  unfold proc_self_dirname. rewrite Hplat.
  destruct (proc_self_dirname_openbsd_forms b w) as [H|[H|H]]; auto.
Qed.

(** What a run of the resolver prints. *)
Lemma proc_self_dirname_stderr (b : Build) (w : World) :
  match fst (proc_self_dirname b w) with
  | Exits =>
      exists calls msg,
        snd (proc_self_dirname b w) = (calls ++ [EvStderr msg])%list
        /\ silent calls = true
        /\ String.prefix "fatal error: " msg = true
  | _ => silent (snd (proc_self_dirname b w)) = true
  end.
Proof.
  destruct (proc_self_dirname_forms b w)
    as [(calls & msg & -> & Hq & Hm)
       |[(o & calls & -> & Ho & Hq)
        |(_ & len & argv0 & args & p & _ & _ & _ & ->)]].
  - cbn [fst snd]. exists calls, msg.
    split; [reflexivity|]. split; [apply query_is_silent; exact Hq | exact Hm].
  - cbn [fst snd]. destruct o; try contradiction;
      apply query_is_silent; exact Hq.
  - destruct (openbsd_found_stats b w argv0 p) as ((d & Hd) & Hs & _).
    cbn [fst snd]. rewrite Hd. unfold silent. rewrite forallb_app.
    apply stat_is_silent in Hs. unfold silent in Hs. rewrite Hs.
    reflexivity.
Qed.

(** X7.  On every platform the resolver writes to stderr only to announce
    that it exits: a run that exits ends with exactly one message, which
    begins with "fatal error: ", and nothing was printed before it; a run
    that returns, or that runs into undefined behaviour, printed nothing. *)
Theorem resolver_prints_only_to_exit (b : Build) (w : World) :
  match fst (proc_self_dirname b w) with
  | Exits =>
      exists calls msg,
        snd (proc_self_dirname b w) = (calls ++ [EvStderr msg])%list
        /\ silent calls = true
        /\ String.prefix "fatal error: " msg = true
  | _ => silent (snd (proc_self_dirname b w)) = true
  end.
Proof. exact (proc_self_dirname_stderr b w). Qed.



(** ** [find_chipdb] by cases *)

(** The home step ends in one of three ways: it is passed (skipped, or
    probed without success) and the search goes on from the fixed prefix;
    its candidate opens; or, outside Windows, [HOME] is unset. *)
Lemma find_chipdb_cases (b : Build) (w : World) (dev : string) :
  (exists t0,
     home_step_passed b w dev t0
     /\ find_chipdb b w dev
        = (fst (from_prefix b w dev),
           (t0 ++ snd (from_prefix b w dev))%list))
  \/ (exists home t0,
        PREFIX_in_home b = true
        /\ homepath_env b w = (Returns home, t0)
        /\ openable w (homepath_of b home dev) = true
        /\ find_chipdb b w dev
           = (Returns (homepath_of b home dev),
              (t0 ++ probe_events w dev (homepath_of b home dev))%list))
  \/ (PREFIX_in_home b = true
      /\ platform b <> Win32
      /\ env w "HOME" = None
      /\ find_chipdb b w dev = (Undefined, [EvGetenv "HOME"])).
Proof.
  destruct (Bool.bool_dec (PREFIX_in_home b) true) as [Hp|Hp].
  - assert (Hhome : (exists home t0, homepath_env b w = (Returns home, t0))
                    \/ (platform b <> Win32 /\ env w "HOME" = None
                        /\ homepath_env b w = (Undefined, [EvGetenv "HOME"]))).
    { destruct (platform b) eqn:Hplat;
        try (rewrite homepath_env_posix by (rewrite Hplat; discriminate);
             destruct (env w "HOME") as [h|];
             [left; eexists; eexists; reflexivity
             |right; split; [discriminate | split; reflexivity]]).
      left. destruct (homepath_env_win32 b w Hplat) as (home & t & E & _).
      exists home, t. exact E. }
    destruct Hhome as [(home & t0 & Hh)|(Hplat & He & Hh)].
    + rewrite (@find_chipdb_through_home b w dev home t0 Hp Hh).
      destruct (openable w (homepath_of b home dev)) eqn:Ho.
      * right; left. exists home, t0. repeat split; assumption.
      * left. eexists. split; [|reflexivity].
        right. split; [exact Hp|]. exists home, t0.
        repeat split; assumption.
    + right; right. repeat split; try assumption.
      apply find_chipdb_home_undefined; assumption.
  - apply Bool.not_true_is_false in Hp.
    left. exists []. split; [left; split; [exact Hp | reflexivity]|].
    rewrite find_chipdb_skips_home by exact Hp.
    destruct (from_prefix b w dev); reflexivity.
Qed.

Lemma probe_events_last (w : World) (dev path : string) :
  exists pre, probe_events w dev path = (pre ++ [EvFopen (c_str path)])%list
              /\ count_probes pre = 0
              /\ (verbose w = false -> pre = []).
Proof.
  unfold probe_events. destruct (verbose w); eexists;
    (split; [reflexivity | split; [reflexivity|]]);
    [discriminate | reflexivity].
Qed.

Lemma append_eq_empty (s1 s2 : string) :
  s1 ++ s2 = "" -> s1 = "" /\ s2 = "".
Proof. destruct s1; simpl; [auto | discriminate]. Qed.

Lemma candidates_nonempty (b : Build) (home dir dev : string) :
  homepath_of b home dev <> ""
  /\ prefixpath_of b dev <> ""
  /\ relbinarypath_of b dir dev <> "".
Proof.
  unfold homepath_of, prefixpath_of, relbinarypath_of.
  repeat split; intros E;
    repeat (apply append_eq_empty in E; destruct E as [_ E]);
    discriminate E.
Qed.

(** X9.  A path that [find_chipdb] returns was opened: when the result is
    not the empty path, the probe of exactly that path succeeded and it is
    the last thing the function did. *)
Theorem find_chipdb_returns_opened_path (b : Build) (w : World)
    (dev p : string) :
  fst (find_chipdb b w dev) = Returns p ->
  p <> "" ->
  openable w p = true
  /\ exists t, snd (find_chipdb b w dev) = (t ++ [EvFopen (c_str p)])%list.
Proof.
  intros Hr Hne.
  assert (Htail : forall t0,
            fst (from_prefix b w dev) = Returns p ->
            openable w p = true
            /\ exists t, (t0 ++ snd (from_prefix b w dev))%list
                         = (t ++ [EvFopen (c_str p)])%list).
  { intros t0. unfold from_prefix.
    destruct (openable w (prefixpath_of b dev)) eqn:Hf.
    - cbn [fst snd]. intros E. inversion E; subst p. split; [exact Hf|].
      destruct (probe_events_last w dev (prefixpath_of b dev))
        as (pre & -> & _).
      exists (t0 ++ pre)%list. rewrite app_assoc. reflexivity.
    - destruct (proc_self_dirname b w) as [[dir| | |] t1]; cbn [fst snd];
        try discriminate.
      destruct (openable w (relbinarypath_of b dir dev)) eqn:Hrel.
      + intros E. inversion E; subst p. split; [exact Hrel|].
        destruct (probe_events_last w dev (relbinarypath_of b dir dev))
          as (pre & -> & _).
        exists (t0 ++ probe_events w dev (prefixpath_of b dev) ++ t1 ++ pre)%list.
        rewrite <- !app_assoc. reflexivity.
      + intros E. inversion E; subst p. contradiction. }
  destruct (find_chipdb_cases b w dev)
    as [(t0 & _ & E)|[(home & t0 & _ & _ & Ho & E)|(_ & _ & _ & E)]];
    rewrite E in Hr |- *; cbn [fst snd] in *.
  - apply Htail. exact Hr.
  - inversion Hr; subst p. split; [exact Ho|].
    destruct (probe_events_last w dev (homepath_of b home dev))
      as (pre & -> & _).
    exists (t0 ++ pre)%list. rewrite app_assoc. reflexivity.
  - discriminate Hr.
Qed.

Lemma find_chipdb_returns_opened_path_witness :
  openable (desk_world ["/opt/ice/bin/../share/icebox/chipdb-hx8k.txt"])
    "/opt/ice/bin/../share/icebox/chipdb-hx8k.txt" = true
  /\ exists t,
       snd (find_chipdb usr_build
              (desk_world ["/opt/ice/bin/../share/icebox/chipdb-hx8k.txt"])
              "hx8k")
       = (t ++ [EvFopen (c_str "/opt/ice/bin/../share/icebox/chipdb-hx8k.txt")])%list.
Proof.
  apply (@find_chipdb_returns_opened_path usr_build
           (desk_world ["/opt/ice/bin/../share/icebox/chipdb-hx8k.txt"])
           "hx8k" "/opt/ice/bin/../share/icebox/chipdb-hx8k.txt").
  - reflexivity.
  - discriminate.
Defined.

(** X10.  The empty path is returned only for "not found": when
    [find_chipdb] returns it, the home step was passed, the fixed-prefix
    probe failed, the resolver returned a directory and the probe relative
    to it failed too.  No candidate is itself the empty path. *)
Theorem find_chipdb_empty_means_not_found (b : Build) (w : World)
    (dev : string) :
  fst (find_chipdb b w dev) = Returns "" ->
  (exists t0, home_step_passed b w dev t0)
  /\ openable w (prefixpath_of b dev) = false
  /\ exists dir t1,
       proc_self_dirname b w = (Returns dir, t1)
       /\ openable w (relbinarypath_of b dir dev) = false.
Proof.
  intros Hr.
  destruct (find_chipdb_cases b w dev)
    as [(t0 & Hpass & E)|[(home & t0 & _ & _ & Ho & E)|(_ & _ & _ & E)]];
    rewrite E in Hr; cbn [fst] in Hr.
  - split; [exists t0; exact Hpass|].
    unfold from_prefix in Hr.
    destruct (openable w (prefixpath_of b dev)) eqn:Hf.
    + cbn [fst] in Hr. inversion Hr as [H0].
      destruct (candidates_nonempty b "" "" dev) as (_ & Hn & _).
      contradiction.
    + split; [reflexivity|].
      destruct (proc_self_dirname b w) as [[dir| | |] t1]; cbn [fst] in Hr;
        try discriminate Hr.
      exists dir, t1. split; [reflexivity|].
      destruct (openable w (relbinarypath_of b dir dev)); [|reflexivity].
      inversion Hr as [H0].
      destruct (candidates_nonempty b "" dir dev) as (_ & _ & Hn).
      contradiction.
  - inversion Hr as [H0].
    destruct (candidates_nonempty b home "" dev) as (Hn & _).
    contradiction.
  - discriminate Hr.
Qed.

Lemma find_chipdb_empty_means_not_found_witness :
  (exists t0, home_step_passed usr_build (desk_world []) "hx8k" t0)
  /\ openable (desk_world []) (prefixpath_of usr_build "hx8k") = false
  /\ exists dir t1,
       proc_self_dirname usr_build (desk_world []) = (Returns dir, t1)
       /\ openable (desk_world []) (relbinarypath_of usr_build dir "hx8k")
          = false.
Proof.
  apply (@find_chipdb_empty_means_not_found usr_build (desk_world []) "hx8k").
  reflexivity.
Defined.

Lemma count_probes_app (t1 t2 : list event) :
  count_probes (t1 ++ t2) = count_probes t1 + count_probes t2.
Proof. unfold count_probes. rewrite filter_app, length_app. reflexivity. Qed.

Lemma count_probes_none (t : list event) :
  forallb (fun e => negb (is_probe e)) t = true -> count_probes t = 0.
Proof.
  unfold count_probes. induction t as [|e t IH]; [reflexivity|]. simpl.
  intros H. apply andb_true_iff in H. destruct H as [He Ht].
  destruct (is_probe e); [discriminate He | exact (IH Ht)].
Qed.

Lemma count_probes_resolver (b : Build) (w : World) :
  count_probes (snd (proc_self_dirname b w)) = 0.
Proof.
  apply count_probes_none.
  destruct (proc_self_dirname_shape b w) as [He _].
  revert He. apply forallb_impl. intros [ | | | | ]; simpl; auto.
Qed.

Lemma count_probes_home (b : Build) (w : World) :
  count_probes (snd (homepath_env b w)) = 0.
Proof.
  apply count_probes_none.
  generalize (homepath_env_events b w).
  apply forallb_impl. intros [ | | | | ]; simpl; auto.
Qed.

Lemma count_probes_probe (w : World) (dev path : string) :
  count_probes (probe_events w dev path) = 1.
Proof. unfold probe_events. destruct (verbose w); reflexivity. Qed.

Lemma count_probes_from_prefix (b : Build) (w : World) (dev : string) :
  1 <= count_probes (snd (from_prefix b w dev)) <= 2.
Proof.
  unfold from_prefix. pose proof (count_probes_resolver b w) as Hr.
  destruct (openable w (prefixpath_of b dev)); cbn [snd].
  - rewrite count_probes_probe. lia.
  - destruct (proc_self_dirname b w) as [[dir| | |] t]; cbn [snd] in *;
      rewrite !count_probes_app, ?count_probes_probe, Hr; lia.
Qed.

Lemma count_probes_home_step (b : Build) (w : World) (dev : string)
    (t0 : list event) :
  home_step_passed b w dev t0 ->
  count_probes t0 <= 1 /\ (PREFIX_in_home b = false -> count_probes t0 = 0).
Proof.
  intros [[Hp ->]|[Hp (home & t & Hh & _ & ->)]].
  - split; [unfold count_probes; simpl; lia | reflexivity].
  - pose proof (count_probes_home b w) as Hc. rewrite Hh in Hc.
    cbn [snd] in Hc.
    rewrite count_probes_app, count_probes_probe, Hc.
    split; [lia | congruence].
Qed.

(** X11.  [find_chipdb] opens at most three files, and at most two when
    [PREFIX] does not begin with "~/"; whenever it returns it has opened
    at least one. *)
Theorem find_chipdb_probe_count (b : Build) (w : World) (dev : string) :
  count_probes (snd (find_chipdb b w dev)) <= 3
  /\ (PREFIX_in_home b = false ->
      1 <= count_probes (snd (find_chipdb b w dev)) <= 2)
  /\ (forall p, fst (find_chipdb b w dev) = Returns p ->
        1 <= count_probes (snd (find_chipdb b w dev))).
Proof.
  pose proof (count_probes_from_prefix b w dev) as Hf.
  destruct (find_chipdb_cases b w dev)
    as [(t0 & Hpass & E)|[(home & t0 & Hp & Hh & _ & E)|(Hp & _ & _ & E)]];
    rewrite E; cbn [fst snd].
  - destruct (count_probes_home_step Hpass) as [H1 H0].
    rewrite count_probes_app.
    split; [lia|]. split; [intros Hp; rewrite (H0 Hp); lia | intros; lia].
  - pose proof (count_probes_home b w) as Hc. rewrite Hh in Hc.
    cbn [snd] in Hc.
    rewrite count_probes_app, count_probes_probe, Hc.
    split; [lia|]. split; [congruence | intros; lia].
  - split; [unfold count_probes; simpl; lia|].
    split; [congruence | discriminate].
Qed.

Lemma find_chipdb_probe_count_witness :
  1 <= count_probes (snd (find_chipdb usr_build (desk_world []) "hx8k")) <= 2.
Proof.
  exact (proj1 (proj2 (find_chipdb_probe_count usr_build (desk_world [])
                         "hx8k")) eq_refl).
Defined.

(** X12.  [find_chipdb] fails only through its two helpers.  It exits
    only when the resolver exits, after the fixed-prefix probe has failed;
    it runs into undefined behaviour only when a "~/" prefix meets an unset
    [HOME] outside Windows, or when the resolver does, again after the
    fixed-prefix probe has failed.  The model's loop bounds are never
    reached. *)
Theorem find_chipdb_failures (b : Build) (w : World) (dev : string) :
  match fst (find_chipdb b w dev) with
  | Returns _ => True
  | Exits =>
      fst (proc_self_dirname b w) = Exits
      /\ openable w (prefixpath_of b dev) = false
  | Undefined =>
      (PREFIX_in_home b = true /\ platform b <> Win32
       /\ env w "HOME" = None)
      \/ (fst (proc_self_dirname b w) = Undefined
          /\ openable w (prefixpath_of b dev) = false)
  | OutOfFuel => False
  end.
Proof.
  assert (Htail :
    match fst (from_prefix b w dev) with
    | Returns _ => True
    | Exits =>
        fst (proc_self_dirname b w) = Exits
        /\ openable w (prefixpath_of b dev) = false
    | Undefined =>
        fst (proc_self_dirname b w) = Undefined
        /\ openable w (prefixpath_of b dev) = false
    | OutOfFuel => False
    end).
  { unfold from_prefix.
    pose proof (proj2 (proc_self_dirname_shape b w)) as Hs. cbv zeta in Hs.
    destruct (openable w (prefixpath_of b dev)); [exact I|].
    destruct (proc_self_dirname b w) as [[dir| | |] t]; cbn [fst] in *;
      auto. }
  destruct (find_chipdb_cases b w dev)
    as [(t0 & _ & E)|[(home & t0 & _ & _ & _ & E)|(Hp & Hplat & He & E)]];
    rewrite E; cbn [fst].
  - destruct (fst (from_prefix b w dev)); auto.
  - exact I.
  - left. auto.
Qed.

Lemma silent_app (t1 t2 : list event) :
  silent (t1 ++ t2) = silent t1 && silent t2.
Proof. unfold silent. apply forallb_app. Qed.

Lemma silent_home (b : Build) (w : World) :
  silent (snd (homepath_env b w)) = true.
Proof.
  generalize (homepath_env_events b w).
  apply forallb_impl. intros [ | | | | ]; simpl; auto.
Qed.

Lemma silent_probe (w : World) (dev path : string) :
  verbose w = false -> silent (probe_events w dev path) = true.
Proof. intros Hv. unfold probe_events. rewrite Hv. reflexivity. Qed.

(** X13.  With [verbose] clear, [find_chipdb] prints nothing unless the
    process exits: a run that returns, or that reads a null pointer, left
    stderr untouched, and a run that exits printed exactly one message,
    the resolver's "fatal error: ...", as its last act. *)
Theorem quiet_find_chipdb_prints_only_to_exit (b : Build) (w : World)
    (dev : string) :
  verbose w = false ->
  match fst (find_chipdb b w dev) with
  | Exits =>
      exists t msg,
        snd (find_chipdb b w dev) = (t ++ [EvStderr msg])%list
        /\ silent t = true
        /\ String.prefix "fatal error: " msg = true
  | _ => silent (snd (find_chipdb b w dev)) = true
  end.
Proof.
  intros Hv.
  assert (Htail : forall t0, silent t0 = true ->
    match fst (from_prefix b w dev) with
    | Exits =>
        exists t msg,
          (t0 ++ snd (from_prefix b w dev))%list = (t ++ [EvStderr msg])%list
          /\ silent t = true
          /\ String.prefix "fatal error: " msg = true
    | _ => silent (t0 ++ snd (from_prefix b w dev)) = true
    end).
  { intros t0 Ht0. unfold from_prefix.
    pose proof (proc_self_dirname_stderr b w) as Hs.
    destruct (openable w (prefixpath_of b dev)); cbn [fst snd].
    - rewrite silent_app, Ht0, silent_probe by exact Hv. reflexivity.
    - destruct (proc_self_dirname b w) as [[dir| | |] t1]; cbn [fst snd] in *.
      + rewrite !silent_app, Ht0, Hs, !silent_probe by exact Hv.
        reflexivity.
      + destruct Hs as (calls & msg & -> & Hc & Hm).
        exists (t0 ++ probe_events w dev (prefixpath_of b dev) ++ calls)%list,
          msg.
        split; [rewrite <- !app_assoc; reflexivity|].
        split; [|exact Hm].
        rewrite !silent_app, Ht0, Hc, silent_probe by exact Hv. reflexivity.
      + rewrite !silent_app, Ht0, Hs, silent_probe by exact Hv. reflexivity.
      + rewrite !silent_app, Ht0, Hs, silent_probe by exact Hv. reflexivity. }
  destruct (find_chipdb_cases b w dev)
    as [(t0 & Hpass & E)|[(home & t0 & _ & Hh & _ & E)|(_ & _ & _ & E)]];
    rewrite E; cbn [fst snd].
  - apply Htail.
    destruct Hpass as [[_ ->]|[_ (home & t & Hh & _ & ->)]]; [reflexivity|].
    pose proof (silent_home b w) as Hsh. rewrite Hh in Hsh. cbn [snd] in Hsh.
    rewrite silent_app, Hsh, silent_probe by exact Hv. reflexivity.
  - pose proof (silent_home b w) as Hsh. rewrite Hh in Hsh. cbn [snd] in Hsh.
    rewrite silent_app, Hsh, silent_probe by exact Hv. reflexivity.
  - reflexivity.
Qed.

Lemma quiet_find_chipdb_prints_only_to_exit_witness :
  exists t msg,
    snd (find_chipdb usr_build bare_world "hx8k") = (t ++ [EvStderr msg])%list
    /\ silent t = true
    /\ String.prefix "fatal error: " msg = true.
Proof.
  exact (@quiet_find_chipdb_prints_only_to_exit usr_build bare_world "hx8k"
           eq_refl).
Defined.

(** ** The candidate paths *)

Lemma append_inj_l (s a c : string) : s ++ a = s ++ c -> a = c.
Proof.
  induction s as [|x s IH]; simpl; intros E; [exact E|].
  inversion E. auto.
Qed.

Lemma append_inj_r (a c t : string) : a ++ t = c ++ t -> a = c.
Proof.
  revert c. induction a as [|x a IH]; intros [|y c] E; simpl in E.
  - reflexivity.
  - exfalso. apply (f_equal String.length) in E. simpl in E.
    rewrite append_length in E. lia.
  - exfalso. apply (f_equal String.length) in E. simpl in E.
    rewrite append_length in E. lia.
  - inversion E. f_equal. auto.
Qed.

(** X14.  Each of the three candidate paths determines the device:
    different devices never share a candidate, whatever the prefix, the
    subdirectory, the home directory and the executable's directory. *)
Theorem candidates_tell_devices_apart (b : Build) (home dir d1 d2 : string) :
  d1 <> d2 ->
  homepath_of b home d1 <> homepath_of b home d2
  /\ prefixpath_of b d1 <> prefixpath_of b d2
  /\ relbinarypath_of b dir d1 <> relbinarypath_of b dir d2.
Proof.
  intros Hne. unfold homepath_of, prefixpath_of, relbinarypath_of.
  repeat split; intros E; apply Hne;
    repeat (apply append_inj_l in E);
    apply (@append_inj_r d1 d2 ".txt"); exact E.
Qed.

Lemma candidates_tell_devices_apart_witness :
  homepath_of home_build "/home/u" "hx8k"
  <> homepath_of home_build "/home/u" "hx1k"
  /\ prefixpath_of home_build "hx8k" <> prefixpath_of home_build "hx1k"
  /\ relbinarypath_of home_build "/opt/ice/bin/" "hx8k"
     <> relbinarypath_of home_build "/opt/ice/bin/" "hx1k".
Proof.
  apply (@candidates_tell_devices_apart home_build "/home/u" "/opt/ice/bin/"
           "hx8k" "hx1k").
  discriminate.
Defined.

Lemma c_str_no_nul (s : string) : has_nul s = false -> c_str s = s.
Proof.
  induction s as [|c s IH]; simpl; [reflexivity|].
  intros H. apply orb_false_iff in H. destruct H as [Hc Hs].
  rewrite Hc, IH by exact Hs. reflexivity.
Qed.

Lemma has_nul_app (s1 s2 : string) :
  has_nul (s1 ++ s2) = has_nul s1 || has_nul s2.
Proof.
  induction s1 as [|c s1 IH]; simpl; [reflexivity|].
  rewrite IH, orb_assoc. reflexivity.
Qed.

(** X16.  When [PREFIX] and [CHIPDB_SUBDIR] hold no NUL, the candidates
    are the plain concatenations
    [home + PREFIX[1:] + "/" + subdir + "/chipdb-" + device + ".txt"],
    [PREFIX + "/share/" + subdir + "/chipdb-" + device + ".txt"] and
    [dir + "../share/" + subdir + "/chipdb-" + device + ".txt"]; and when
    the device holds none either, the file that is probed for the
    fixed-prefix candidate is the path itself. *)
Theorem candidates_are_concatenations (b : Build) (home dir dev : string) :
  has_nul (PREFIX b) = false ->
  has_nul (CHIPDB_SUBDIR b) = false ->
  homepath_of b home dev
  = home ++ from_index_1 (PREFIX b) ++ "/" ++ CHIPDB_SUBDIR b ++ "/chipdb-"
    ++ dev ++ ".txt"
  /\ prefixpath_of b dev
     = PREFIX b ++ "/share/" ++ CHIPDB_SUBDIR b ++ "/chipdb-" ++ dev ++ ".txt"
  /\ relbinarypath_of b dir dev
     = dir ++ "../share/" ++ CHIPDB_SUBDIR b ++ "/chipdb-" ++ dev ++ ".txt"
  /\ (has_nul dev = false ->
      c_str (prefixpath_of b dev) = prefixpath_of b dev).
Proof.
  intros Hp Hs.
  assert (Hp1 : has_nul (from_index_1 (PREFIX b)) = false).
  { destruct (PREFIX b) as [|c r]; [reflexivity|]. simpl in Hp.
    apply orb_false_iff in Hp. exact (proj2 Hp). }
  assert (Hsub : forall pre, has_nul pre = false ->
            c_str (pre ++ CHIPDB_SUBDIR b ++ "/chipdb-")
            = pre ++ CHIPDB_SUBDIR b ++ "/chipdb-").
  { intros pre Hpre. apply c_str_no_nul.
    rewrite !has_nul_app, Hpre, Hs. reflexivity. }
  unfold homepath_of, prefixpath_of, relbinarypath_of.
  rewrite (c_str_no_nul _ Hp1).
  rewrite (Hsub "/" eq_refl), (Hsub "../share/" eq_refl).
  assert (Hpre : c_str (PREFIX b ++ "/share/" ++ CHIPDB_SUBDIR b ++ "/chipdb-")
                 = PREFIX b ++ "/share/" ++ CHIPDB_SUBDIR b ++ "/chipdb-").
  { apply c_str_no_nul. rewrite !has_nul_app, Hp, Hs. reflexivity. }
  rewrite Hpre.
  split; [|split; [|split]].
  - rewrite !append_assoc. reflexivity.
  - rewrite !append_assoc. reflexivity.
  - rewrite !append_assoc. reflexivity.
  - intros Hd. apply c_str_no_nul.
    rewrite !has_nul_app, Hp, Hs, Hd. reflexivity.
Qed.

Lemma candidates_are_concatenations_witness :
  homepath_of home_build "/home/u" "hx8k"
  = "/home/u" ++ from_index_1 (PREFIX home_build) ++ "/"
    ++ CHIPDB_SUBDIR home_build ++ "/chipdb-" ++ "hx8k" ++ ".txt"
  /\ prefixpath_of home_build "hx8k"
     = PREFIX home_build ++ "/share/" ++ CHIPDB_SUBDIR home_build
       ++ "/chipdb-" ++ "hx8k" ++ ".txt"
  /\ relbinarypath_of home_build "/opt/ice/bin/" "hx8k"
     = "/opt/ice/bin/" ++ "../share/" ++ CHIPDB_SUBDIR home_build
       ++ "/chipdb-" ++ "hx8k" ++ ".txt"
  /\ (has_nul "hx8k" = false ->
      c_str (prefixpath_of home_build "hx8k") = prefixpath_of home_build "hx8k").
Proof.
  apply (@candidates_are_concatenations home_build "/home/u" "/opt/ice/bin/"
           "hx8k"); reflexivity.
Defined.

(** ** The home directory on Windows *)

(** X15.  On Windows the home directory is [USERPROFILE] when that is
    set; otherwise [HOMEDRIVE] followed by [HOMEPATH] when both are set;
    otherwise it is empty, and the first path that [find_chipdb] then
    probes for a "~/" prefix is [PREFIX] without its tilde followed by the
    subdirectory and the file name. *)
Theorem win32_home_directory (b : Build) (w : World) (dev : string) :
  platform b = Win32 ->
  (forall up, env w "USERPROFILE" = Some up ->
     fst (homepath_env b w) = Returns (c_str up))
  /\ (forall hd hp,
        env w "USERPROFILE" = None ->
        env w "HOMEDRIVE" = Some hd ->
        env w "HOMEPATH" = Some hp ->
        fst (homepath_env b w) = Returns (c_str hd ++ c_str hp))
  /\ (env w "USERPROFILE" = None ->
      env w "HOMEDRIVE" = None \/ env w "HOMEPATH" = None ->
      fst (homepath_env b w) = Returns ""
      /\ (PREFIX_in_home b = true ->
          exists t1 t2,
            snd (find_chipdb b w dev)
            = (t1 ++ EvFopen (c_str (homepath_of b "" dev)) :: t2)%list
            /\ count_probes t1 = 0)).
Proof.
  intros Hplat. split; [|split].
  - intros up Hup. unfold homepath_env, getenv, append_chars. rewrite Hplat.
    run_call. rewrite Hup. run_call. reflexivity.
  - intros hd hp Hup Hhd Hhp.
    unfold homepath_env, getenv, append_chars. rewrite Hplat.
    run_call. rewrite Hup. run_call.
    rewrite Hhd. run_call. rewrite Hhp.
    rewrite !bind_assoc, bind_emit, !bind_ret.
    rewrite !bind_assoc, bind_emit, bind_ret. reflexivity.
  - intros Hup Hmiss.
    assert (E : exists t, homepath_env b w = (Returns "", t)
                          /\ count_probes t = 0).
    { unfold homepath_env, getenv, append_chars. rewrite Hplat.
      run_call. rewrite Hup. run_call.
      destruct (env w "HOMEDRIVE") as [hd|].
      - run_call. destruct Hmiss as [Hmiss|Hmiss]; [discriminate|].
        rewrite Hmiss. eexists. split; reflexivity.
      - eexists. split; reflexivity. }
    destruct E as (t & E & Hc). split.
    + rewrite E. reflexivity.
    + intros Hp.
      rewrite (@find_chipdb_through_home b w dev "" t Hp E).
      destruct (probe_events_last w dev (homepath_of b "" dev))
        as (pre & Hpre & Hc0 & _).
      destruct (openable w (homepath_of b "" dev)); cbn [snd];
        rewrite Hpre.
      * exists (t ++ pre)%list, [].
        split; [rewrite <- app_assoc; reflexivity|].
        rewrite count_probes_app, Hc, Hc0. reflexivity.
      * exists (t ++ pre)%list, (snd (from_prefix b w dev)).
        split; [rewrite <- !app_assoc; reflexivity|].
        rewrite count_probes_app, Hc, Hc0. reflexivity.
Qed.

Lemma win32_home_directory_witness :
  fst (homepath_env (build Win32 "~/ice" "icebox")
         (win32_env_world (set_env "HOMEDRIVE" "C:"
                             (set_env "HOMEPATH" "\Users\u" no_env))))
  = Returns "C:\Users\u"
  /\ fst (homepath_env (build Win32 "~/ice" "icebox")
            (win32_env_world (set_env "HOMEDRIVE" "C:" no_env)))
     = Returns ""
  /\ exists t1 t2,
       snd (find_chipdb (build Win32 "~/ice" "icebox")
              (win32_env_world (set_env "HOMEDRIVE" "C:" no_env)) "hx8k")
       = (t1 ++ EvFopen "/ice/icebox/chipdb-hx8k.txt" :: t2)%list
       /\ count_probes t1 = 0.
Proof.
  split; [|split].
  - exact (proj1 (proj2 (@win32_home_directory (build Win32 "~/ice" "icebox")
             (win32_env_world (set_env "HOMEDRIVE" "C:"
                                 (set_env "HOMEPATH" "\Users\u" no_env)))
             "hx8k" eq_refl)) "C:" "\Users\u" eq_refl eq_refl eq_refl).
  - exact (proj1 (proj2 (proj2 (@win32_home_directory
             (build Win32 "~/ice" "icebox")
             (win32_env_world (set_env "HOMEDRIVE" "C:" no_env))
             "hx8k" eq_refl)) eq_refl (or_intror eq_refl))).
  - exact (proj2 (proj2 (proj2 (@win32_home_directory
             (build Win32 "~/ice" "icebox")
             (win32_env_world (set_env "HOMEDRIVE" "C:" no_env))
             "hx8k" eq_refl)) eq_refl (or_intror eq_refl)) eq_refl).
Defined.

(** ** An empty executable directory *)

(** X17.  When the resolver returns the empty string (on OpenBSD: the
    command is in no directory of [PATH], or [realpath] failed), the third
    candidate is "../share/<subdir>/chipdb-<device>.txt", a path relative
    to the current directory; it is probed like any other and returned
    when it opens. *)
Theorem empty_directory_gives_relative_candidate (b : Build) (w : World)
    (dev : string) (t0 t1 : list event) :
  home_step_passed b w dev t0 ->
  openable w (prefixpath_of b dev) = false ->
  proc_self_dirname b w = (Returns "", t1) ->
  has_nul (CHIPDB_SUBDIR b) = false ->
  let relbinarypath :=
    "../share/" ++ CHIPDB_SUBDIR b ++ "/chipdb-" ++ dev ++ ".txt" in
  find_chipdb b w dev
  = (Returns (if openable w relbinarypath then relbinarypath else ""),
     (t0 ++ probe_events w dev (prefixpath_of b dev) ++ t1
      ++ probe_events w dev relbinarypath)%list).
Proof.
  intros Hpass Hf Hd Hs relbinarypath.
  assert (Hrel : relbinarypath_of b "" dev = relbinarypath).
  { unfold relbinarypath_of, relbinarypath. simpl.
    rewrite c_str_no_nul
      by (rewrite has_nul_app, Hs; reflexivity).
    rewrite !append_assoc. reflexivity. }
  assert (Htail : from_prefix b w dev
                  = (Returns (if openable w relbinarypath
                              then relbinarypath else ""),
                     (probe_events w dev (prefixpath_of b dev) ++ t1
                      ++ probe_events w dev relbinarypath)%list)).
  { unfold from_prefix. rewrite Hf, Hd, Hrel. reflexivity. }
  destruct Hpass as [[Hp ->]|[Hp (home & t & Hh & Ho & ->)]].
  - rewrite find_chipdb_skips_home by exact Hp. exact Htail.
  - rewrite (@find_chipdb_through_home b w dev home t Hp Hh), Ho, Htail.
    reflexivity.
Qed.

Lemma empty_directory_gives_relative_candidate_witness :
  find_chipdb openbsd_build
    (with_files (add_file "../share/icebox/chipdb-hx8k.txt" no_files)
       (openbsd_world (Some "/a:/b") ["tool"] []))
    "hx8k"
  = (Returns "../share/icebox/chipdb-hx8k.txt",
     [EvFopen "/usr/local/share/icebox/chipdb-hx8k.txt";
      EvPlatform "sysctl"; EvPlatform "sysctl"; EvGetenv "PATH";
      EvStat "/a/tool"; EvStat "/b/tool";
      EvFopen "../share/icebox/chipdb-hx8k.txt"]).
Proof.
  exact (@empty_directory_gives_relative_candidate openbsd_build
           (with_files (add_file "../share/icebox/chipdb-hx8k.txt" no_files)
              (openbsd_world (Some "/a:/b") ["tool"] []))
           "hx8k" []
           [EvPlatform "sysctl"; EvPlatform "sysctl"; EvGetenv "PATH";
            EvStat "/a/tool"; EvStat "/b/tool"]
           (or_introl (conj eq_refl eq_refl)) eq_refl eq_refl eq_refl).
Defined.

(** ** What the environment can change *)

Lemma proc_self_dirname_with_env (b : Build) (w : World)
    (e : string -> option string) :
  platform b <> OpenBSD ->
  proc_self_dirname b (with_env e w) = proc_self_dirname b w.
Proof.
  intros Hplat. unfold proc_self_dirname.
  destruct (platform b); try contradiction; reflexivity.
Qed.

(** X18.  When [PREFIX] does not begin with "~/" and the platform is not
    OpenBSD, [find_chipdb] does not depend on the environment: with any
    other setting of the variables its outcome and its trace are the
    same. *)
Theorem find_chipdb_ignores_environment (b : Build) (w : World)
    (dev : string) (e : string -> option string) :
  PREFIX_in_home b = false ->
  platform b <> OpenBSD ->
  find_chipdb b (with_env e w) dev = find_chipdb b w dev.
Proof.
  intros Hp Hplat.
  rewrite !find_chipdb_skips_home by exact Hp.
  unfold from_prefix. rewrite (@proc_self_dirname_with_env b w e Hplat).
  reflexivity.
Qed.

Lemma find_chipdb_ignores_environment_witness :
  find_chipdb usr_build
    (with_env (set_env "HOME" "/root" (set_env "PATH" "/bin" no_env))
       (desk_world ["/usr/local/share/icebox/chipdb-hx8k.txt"])) "hx8k"
  = find_chipdb usr_build
      (desk_world ["/usr/local/share/icebox/chipdb-hx8k.txt"]) "hx8k".
Proof.
  apply (@find_chipdb_ignores_environment usr_build
           (desk_world ["/usr/local/share/icebox/chipdb-hx8k.txt"]) "hx8k"
           (set_env "HOME" "/root" (set_env "PATH" "/bin" no_env))).
  - reflexivity.
  - discriminate.
Defined.

(** ** More on the OpenBSD variant *)

(** X19.  On OpenBSD, too, the calls that fetch the argument vector are
    checked: a failed size query, a failed [malloc] and a failed second
    query each print their message and exit, before [argv[0]], [PATH] or
    the file system are looked at. *)
Theorem openbsd_checks_sysctl_and_malloc (b : Build) (w : World) :
  platform b = OpenBSD ->
  (forall e, kern_proc_argv_len w = Err e ->
     proc_self_dirname b w
     = (Exits, [EvPlatform "sysctl";
                EvStderr ("fatal error: sysctl failed: " ++ e ++ nl)]))
  /\ (forall len e,
        kern_proc_argv_len w = Ok len ->
        heap w len = Err e ->
        proc_self_dirname b w
        = (Exits, [EvPlatform "sysctl";
                   EvStderr ("fatal error: malloc failed: " ++ e ++ nl)]))
  /\ (forall len e,
        kern_proc_argv_len w = Ok len ->
        heap w len = Ok tt ->
        kern_proc_argv w = Err e ->
        proc_self_dirname b w
        = (Exits, [EvPlatform "sysctl"; EvPlatform "sysctl";
                   EvStderr ("fatal error: sysctl failed: " ++ e ++ nl)])).
Proof.
  intros Hplat. unfold proc_self_dirname. rewrite Hplat.
  unfold proc_self_dirname_openbsd, sysctl.
  split; [|split].
  - intros e ->. reflexivity.
  - intros len e -> Hm. run_call. rewrite Hm. reflexivity.
  - intros len e -> Hm ->. run_call. rewrite Hm. reflexivity.
Qed.

Lemma openbsd_checks_sysctl_and_malloc_witness :
  proc_self_dirname openbsd_build bare_world
  = (Exits, [EvPlatform "sysctl";
             EvStderr ("fatal error: sysctl failed: "
                       ++ "Operation not permitted" ++ nl)]).
Proof.
  exact (proj1 (@openbsd_checks_sysctl_and_malloc openbsd_build bare_world
                  eq_refl) "Operation not permitted" eq_refl).
Defined.

(** X20.  The path that [snprintf] leaves in [epath] always fits the
    buffer: it has at most [PATH_MAX - 1] characters, it is a prefix of
    "<entry>/<argv0>", and it is all of it when that is short enough. *)
Theorem snprintf_join_fits (b : Build) (dir comm : string) :
  String.length (snprintf_join b dir comm) <= PATH_MAX b - 1
  /\ String.prefix (snprintf_join b dir comm) (dir ++ "/" ++ comm) = true
  /\ (String.length dir + S (String.length comm) < PATH_MAX b ->
      snprintf_join b dir comm = dir ++ "/" ++ comm).
Proof.
  unfold snprintf_join. set (s := dir ++ "/" ++ comm).
  split; [|split].
  - destruct (le_lt_dec (PATH_MAX b - 1) (String.length s)).
    + rewrite substring_0_length by lia. lia.
    + rewrite substring_0_ge by lia. lia.
  - generalize (PATH_MAX b - 1). intros n. revert n.
    induction s as [|c s IH]; intros [|n]; simpl; try reflexivity.
    destruct (ascii_dec c c) as [_|Hne]; [apply IH | contradiction].
  - intros Hfit. apply substring_0_ge. unfold s.
    rewrite append_length. simpl. lia.
Qed.

Lemma snprintf_join_fits_witness :
  snprintf_join openbsd_build "/usr/local/bin" "icetime"
  = "/usr/local/bin/icetime".
Proof.
  apply (proj2 (proj2 (snprintf_join_fits openbsd_build "/usr/local/bin"
                         "icetime"))).
  simpl. lia.
Defined.
